(** * The wire codec of package [wire] (src/wire/protocol.go)

    A shallow embedding of the JSON codec types of the package: the
    literal tags, the enumerated tokens [Dismissed], [Period] and [Color],
    the sentinel [Timestamp] and the reminder [Time], together with the
    parts of Go's [bytes], [fmt], [time] and [encoding/json] packages that
    the methods call. *)

From Stdlib Require Import ZArith List Bool Lia.
From Stdlib Require Import Strings.Byte Strings.String.
From Stdlib Require Import Numbers.DecimalPos.
From Stdlib Require Numbers.DecimalN Numbers.DecimalFacts.
Import ListNotations.

Local Open Scope Z_scope.

(** ** Byte slices *)

(** Go's [[]byte]. *)
Definition bytes := list byte.

(** The bytes of a Go string literal. *)
Definition lit (s : string) : bytes := list_byte_of_string s.

(** The byte [0x22], the double quote. *)
Definition dquote : byte := x22.

(** A Go raw literal that carries its own double quotes, such as the
    one behind [nodekind]. *)
Definition quoted (s : string) : bytes := dquote :: lit s ++ [dquote].

(** [bytes.Equal]: same length and the same bytes. *)
Fixpoint bytes_Equal (a b : bytes) : bool :=
  match a, b with
  | [], [] => true
  | x :: a', y :: b' => Byte.eqb x y && bytes_Equal a' b'
  | _, _ => false
  end.

(** ** Errors *)

(** An operand of a [fmt.Errorf] call. *)
Inductive fmtarg : Type :=
| ArgBytes (b : bytes)
| ArgInt (n : Z).

(** The message of a [*time.ParseError], kept as the parts it is
    concatenated from: empty, [": " + what + " out of range"], or
    [": extra text: " + quote(rest)]. *)
Inductive parse_message : Type :=
| MsgNone
| MsgOutOfRange (what : string)
| MsgExtraText (rest : bytes).

(** Go [error] values the package can return: the ones it builds with
    [fmt.Errorf] (kept as the format and its operands), the
    [*time.ParseError] of [time.Parse] (with the five fields of the
    struct), and the [*json.MarshalerError] that [encoding/json] wraps
    around the error of a [MarshalJSON] method. *)
Inductive error : Type :=
| Errorf (format : string) (args : list fmtarg)
| ParseError (Layout Value LayoutElem ValueElem : bytes) (Message : parse_message)
| MarshalerError (typ : string) (err : error).

(** The two results of a [MarshalJSON] method; [None] is Go's nil error
    and [[]] the nil slice. *)
Definition marshaled : Type := bytes * option error.

(** A method on a pointer receiver, such as [UnmarshalJSON], takes the
    value pointed to and returns the value left there, next to the
    error. *)
Definition unmarshaler (T : Type) : Type := T -> bytes -> T * option error.

(** ** Wire values *)

Definition nodekind : bytes := quoted "notes#node".
Definition tskind : bytes := quoted "notes#timestamps".

Definition notetype : bytes := quoted "NOTE".
Definition listtype : bytes := quoted "LIST".
Definition itemtype : bytes := quoted "LIST_ITEM".

Definition tszero : bytes := quoted "1970-01-01T00:00:00.000Z".

Definition notDismissedVal : bytes := quoted "INITIAL".
Definition dismissedVal : bytes := quoted "DISMISSED".

Definition morningVal : bytes := quoted "MORNING".
Definition afternoonVal : bytes := quoted "AFTERNOON".
Definition eveningVal : bytes := quoted "EVENING".
Definition nightVal : bytes := quoted "NIGHT".

Definition defaultVal : bytes := quoted "DEFAULT".
Definition redVal : bytes := quoted "RED".
Definition orangeVal : bytes := quoted "ORANGE".
Definition yellowVal : bytes := quoted "YELLOW".
Definition greenVal : bytes := quoted "GREEN".
Definition tealVal : bytes := quoted "TEAL".
Definition blueVal : bytes := quoted "BLUE".
Definition grayVal : bytes := quoted "GRAY".

Definition tsLayout : bytes := lit "2006-01-02T15:04:05.000Z".

(** ** Literal tags *)

(** The five tag types are empty structs. *)
Inductive TSKind : Type := mkTSKind.
Inductive NodeKind : Type := mkNodeKind.
Inductive NoteType : Type := mkNoteType.
Inductive ListType : Type := mkListType.
Inductive ItemType : Type := mkItemType.

Definition TSKind_MarshalJSON (_ : TSKind) : marshaled := (tskind, None).

Definition TSKind_UnmarshalJSON (k : TSKind) (b : bytes) : TSKind * option error :=
  if negb (bytes_Equal tskind b)
  then (k, Some (Errorf "expected %q got %q" [ArgBytes tskind; ArgBytes b]))
  else (k, None).

Definition NodeKind_MarshalJSON (_ : NodeKind) : marshaled := (nodekind, None).

Definition NodeKind_UnmarshalJSON (k : NodeKind) (b : bytes) : NodeKind * option error :=
  if negb (bytes_Equal nodekind b)
  then (k, Some (Errorf "expected %q got %q" [ArgBytes nodekind; ArgBytes b]))
  else (k, None).

Definition NoteType_MarshalJSON (_ : NoteType) : marshaled := (notetype, None).

Definition NoteType_UnmarshalJSON (k : NoteType) (b : bytes) : NoteType * option error :=
  if negb (bytes_Equal notetype b)
  then (k, Some (Errorf "expected %q got %q" [ArgBytes notetype; ArgBytes b]))
  else (k, None).

Definition ListType_MarshalJSON (_ : ListType) : marshaled := (listtype, None).

Definition ListType_UnmarshalJSON (k : ListType) (b : bytes) : ListType * option error :=
  if negb (bytes_Equal listtype b)
  then (k, Some (Errorf "expected %q got %q" [ArgBytes listtype; ArgBytes b]))
  else (k, None).

Definition ItemType_MarshalJSON (_ : ItemType) : marshaled := (itemtype, None).

Definition ItemType_UnmarshalJSON (k : ItemType) (b : bytes) : ItemType * option error :=
  if negb (bytes_Equal itemtype b)
  then (k, Some (Errorf "expected %q got %q" [ArgBytes itemtype; ArgBytes b]))
  else (k, None).

(** ** Dismissed *)

(** [type Dismissed bool]. *)
Definition Dismissed : Type := bool.

Definition Dismissed_MarshalJSON (d : Dismissed) : marshaled :=
  if d then (dismissedVal, None) else (notDismissedVal, None).

Definition Dismissed_UnmarshalJSON (d : Dismissed) (b : bytes) : Dismissed * option error :=
  if bytes_Equal dismissedVal b then (true, None)
  else if bytes_Equal notDismissedVal b then (true, None)
  else (d, Some (Errorf "expected %q or %q, got %q"
                   [ArgBytes dismissedVal; ArgBytes notDismissedVal; ArgBytes b])).

(** ** Period *)

(** [type Period int], with the constants the [iota] block gives. *)
Definition Period : Type := Z.

Definition SpecificTime : Period := 0.
Definition Morning : Period := 1.
Definition Afternoon : Period := 2.
Definition Evening : Period := 3.
Definition Night : Period := 4.

Definition Period_MarshalJSON (p : Period) : marshaled :=
  if p =? Morning then (morningVal, None)
  else if p =? Afternoon then (afternoonVal, None)
  else if p =? Evening then (eveningVal, None)
  else if p =? Night then (nightVal, None)
  else ([], Some (Errorf "unsupported period value %d" [ArgInt p])).

Definition Period_UnmarshalJSON (p : Period) (b : bytes) : Period * option error :=
  if bytes_Equal morningVal b then (Morning, None)
  else if bytes_Equal afternoonVal b then (Afternoon, None)
  else if bytes_Equal eveningVal b then (Evening, None)
  else if bytes_Equal nightVal b then (Night, None)
  else (p, Some (Errorf "unexpected Period value %q" [ArgBytes b])).

(** ** Color *)

(** [type Color int]. *)
Definition Color : Type := Z.

Definition DefaultColor : Color := 0.
Definition Red : Color := 1.
Definition Orange : Color := 2.
Definition Yellow : Color := 3.
Definition Green : Color := 4.
Definition Teal : Color := 5.
Definition Blue : Color := 6.
Definition Gray : Color := 7.

Definition Color_MarshalJSON (c : Color) : marshaled :=
  if c =? DefaultColor then (defaultVal, None)
  else if c =? Red then (redVal, None)
  else if c =? Orange then (orangeVal, None)
  else if c =? Yellow then (yellowVal, None)
  else if c =? Green then (greenVal, None)
  else if c =? Teal then (tealVal, None)
  else if c =? Blue then (blueVal, None)
  else if c =? Gray then (grayVal, None)
  else ([], Some (Errorf "unsupported color value %d" [ArgInt c])).

Definition Color_UnmarshalJSON (c : Color) (b : bytes) : Color * option error :=
  if bytes_Equal defaultVal b then (DefaultColor, None)
  else if bytes_Equal redVal b then (Red, None)
  else if bytes_Equal orangeVal b then (Orange, None)
  else if bytes_Equal yellowVal b then (Yellow, None)
  else if bytes_Equal greenVal b then (Green, None)
  else if bytes_Equal tealVal b then (Teal, None)
  else if bytes_Equal blueVal b then (Blue, None)
  else if bytes_Equal grayVal b then (Gray, None)
  else (c, Some (Errorf "unexpected Color value %q" [ArgBytes b])).

(** ** Go's [time] package

    The part of the library that [Timestamp] and [Time] call: the
    calendar arithmetic of [time.Date] with its zone lookup, the read-out
    of a [time.Time], and [Format] and [Parse] for the layout [tsLayout].
    Integers are unbounded here; Go's [int], [int64] and [uint64] agree
    with them on years and fields of at most nine digits, where nothing
    in [time.Date] wraps, and the theorems that read a date back or
    compare two dates state such bounds. *)

(** The ends of time for a zone without transitions on that side. *)
Definition alpha : Z := - 2 ^ 63.
Definition omega : Z := 2 ^ 63 - 1.

(** A [*time.Location], by what its [lookup] method returns for a Unix
    time: the offset in seconds east of UTC of the zone in force then,
    and the Unix times [start] and [end] between which that zone is in
    force.  The process's local zone, [time.Now().Location()], is an
    explicit argument of the functions that read it. *)
Record Location : Type := mkLocation { lookup : Z -> Z * Z * Z }.

(** [time.FixedZone]: one zone for all time. *)
Definition FixedZone (offset : Z) : Location :=
  mkLocation (fun _ => (offset, alpha, omega)).

Definition UTC : Location := FixedZone 0.

(** The offset the location has at a Unix time. *)
Definition offset_at (l : Location) (unix : Z) : Z := fst (fst (lookup l unix)).

(** The seconds from January 1 of year 1 to the Unix epoch. *)
Definition unixToInternal : Z := 62135596800.

(** A [time.Time]: seconds since January 1 of year 1, 00:00:00 UTC,
    nanoseconds within the second, and the location the time is
    displayed in.  The monotonic clock reading is left out. *)
Record time_Time : Type := mkTime {
  sec : Z;
  nsec : Z;
  loc : Location
}.

(** The zero value [time.Time{}]. *)
Definition time_zero : time_Time := mkTime 0 0 UTC.

Definition time_IsZero (t : time_Time) : bool :=
  (sec t =? 0) && (nsec t =? 0).

Definition secondsPerMinute : Z := 60.
Definition secondsPerHour : Z := 60 * secondsPerMinute.
Definition secondsPerDay : Z := 24 * secondsPerHour.
Definition daysPer400Years : Z := 365 * 400 + 97.
Definition daysPer100Years : Z := 365 * 100 + 24.
Definition daysPer4Years : Z := 365 * 4 + 1.

(** [daysBefore[m]]: the days of a non-leap year before month [m+1]. *)
Definition daysBefore (m : Z) : Z :=
  nth (Z.to_nat m) [0; 31; 59; 90; 120; 151; 181; 212; 243; 273; 304; 334; 365] 0.

Definition isLeap (year : Z) : bool :=
  (Z.rem year 4 =? 0) && (negb (Z.rem year 100 =? 0) || (Z.rem year 400 =? 0)).

(** [norm(hi, lo, base)]: carry [lo] into [hi] until [0 <= lo < base].
    Both divisions have non-negative operands. *)
Definition norm (hi lo base : Z) : Z * Z :=
  let '(hi, lo) :=
    if lo <? 0 then
      let n := (- lo - 1) / base + 1 in (hi - n, lo + n * base)
    else (hi, lo) in
  if lo >=? base then
    let n := lo / base in (hi + n, lo - n * base)
  else (hi, lo).

(** [daysSinceEpoch(year)]: days from the absolute epoch to January 1 of
    [year].  The library's epoch, year -292277022399, is moved to year
    1, the same point of the 400-year cycle, so that the count is the
    one [sec] is based on; the first division then rounds down on years
    before it, as the library's unsigned one does from its epoch. *)
Definition daysSinceEpoch (year : Z) : Z :=
  let y := year - 1 in
  let n := y / 400 in
  let y := y - 400 * n in
  let d := daysPer400Years * n in
  let n := y / 100 in
  let y := y - 100 * n in
  let d := d + daysPer100Years * n in
  let n := y / 4 in
  let y := y - 4 * n in
  let d := d + daysPer4Years * n in
  let n := y in
  d + 365 * n.

(** [time.Date].  The wall clock asked for is first taken as if it were
    UTC; the zone in force at that Unix time gives a first offset, and
    when the time so corrected falls outside that zone's interval the
    offset is looked up again at the corrected time. *)
Definition time_Date (year month day hour min sec nsec : Z) (loc : Location)
  : time_Time :=
  let m := month - 1 in
  let '(year, m) := norm year m 12 in
  let month := m + 1 in
  let '(sec, nsec) := norm sec nsec 1000000000 in
  let '(min, sec) := norm min sec 60 in
  let '(hour, min) := norm hour min 60 in
  let '(day, hour) := norm day hour 24 in
  let d := daysSinceEpoch year in
  let d := d + daysBefore (month - 1) in
  let d := if isLeap year && (month >=? 3) then d + 1 else d in
  let d := d + (day - 1) in
  let abs := d * secondsPerDay in
  let abs := abs + (hour * secondsPerHour + min * secondsPerMinute + sec) in
  let unix := abs - unixToInternal in
  let '(offset, start, end_) := lookup loc unix in
  let unix :=
    if negb (offset =? 0) then
      let utc := unix - offset in
      let offset :=
        if (utc <? start) || (utc >=? end_) then offset_at loc utc else offset in
      unix - offset
    else unix in
  mkTime (unix + unixToInternal) nsec loc.

(** [t.abs()]: the seconds since the absolute epoch on the wall clock of
    the time's location, that is with the offset the location has at the
    time. *)
Definition time_abs (t : time_Time) : Z :=
  sec t + offset_at (loc t) (sec t - unixToInternal).

(** [absDate(abs, false)]: the year and the day within it, from zero. *)
Definition absYearDay (abs : Z) : Z * Z :=
  let d := abs / secondsPerDay in
  let n := d / daysPer400Years in
  let y := 400 * n in
  let d := d - daysPer400Years * n in
  let n := d / daysPer100Years in
  let n := n - Z.shiftr n 2 in
  let y := y + 100 * n in
  let d := d - daysPer100Years * n in
  let n := d / daysPer4Years in
  let y := y + 4 * n in
  let d := d - daysPer4Years * n in
  let n := d / 365 in
  let n := n - Z.shiftr n 2 in
  let y := y + n in
  let d := d - 365 * n in
  let year := y + 1 in
  let yday := d in
  (year, yday).

(** [absDate(abs, true)]: year, month and day of month. *)
Definition absDate (abs : Z) : Z * Z * Z :=
  let '(year, yday) := absYearDay abs in
  let day := yday in
  if isLeap year && (day =? 31 + 29 - 1) then (year, 2, 29)
  else
    let day := if isLeap year && (day >? 31 + 29 - 1) then day - 1 else day in
    let month := day / 31 in
    let end_ := daysBefore (month + 1) in
    let '(month, begin) :=
      if day >=? end_ then (month + 1, end_) else (month, daysBefore month) in
    let month := month + 1 in
    (year, month, day - begin + 1).

(** [absClock(abs)]: hour, minute and second within the day. *)
Definition absClock (abs : Z) : Z * Z * Z :=
  let sec := abs mod secondsPerDay in
  let hour := sec / secondsPerHour in
  let sec := sec - hour * secondsPerHour in
  let min := sec / secondsPerMinute in
  let sec := sec - min * secondsPerMinute in
  (hour, min, sec).

(** [t.Date()] and [t.Clock()]. *)
Definition time_Date_of (t : time_Time) : Z * Z * Z := absDate (time_abs t).
Definition time_Clock (t : time_Time) : Z * Z * Z := absClock (time_abs t).

(** [daysIn(m, year)]. *)
Definition daysIn (m year : Z) : Z :=
  if (m =? 2) && isLeap year then 29
  else daysBefore m - daysBefore (m - 1).

(** *** Layouts *)

(** The layout elements that occur in [tsLayout]; [stdFracSecond0 n] is
    a fraction of [n] digits. *)
Inductive std : Type :=
| stdLongYear
| stdZeroMonth
| stdZeroDay
| stdHour
| stdZeroMinute
| stdZeroSecond
| stdFracSecond0 (n : nat).

(** The text of an element in a layout. *)
Definition std_text (s : std) : bytes :=
  match s with
  | stdLongYear => lit "2006"
  | stdZeroMonth => lit "01"
  | stdZeroDay => lit "02"
  | stdHour => lit "15"
  | stdZeroMinute => lit "04"
  | stdZeroSecond => lit "05"
  | stdFracSecond0 n => lit "." ++ repeat "0"%byte n
  end.

(** A layout cut up as successive calls of [nextStdChunk] cut it: each
    element with the literal text before it, and the literal text after
    the last element. *)
Record layout : Type := mkLayout {
  chunks : list (bytes * std);
  suffix : bytes
}.

Definition layout_text (l : layout) : bytes :=
  flat_map (fun c => fst c ++ std_text (snd c)) (chunks l) ++ suffix l.

(** [tsLayout] cut up.  The final [Z] has no zone digits after it, so it
    is literal text, not a zone element. *)
Definition tsLayout_chunks : layout :=
  mkLayout
    [ ([], stdLongYear); (lit "-", stdZeroMonth); (lit "-", stdZeroDay);
      (lit "T", stdHour); (lit ":", stdZeroMinute); (lit ":", stdZeroSecond);
      ([], stdFracSecond0 3) ]
    (lit "Z").

(** *** Format *)

Fixpoint uint_bytes (u : Decimal.uint) : bytes :=
  match u with
  | Decimal.Nil => []
  | Decimal.D0 u => "0"%byte :: uint_bytes u
  | Decimal.D1 u => "1"%byte :: uint_bytes u
  | Decimal.D2 u => "2"%byte :: uint_bytes u
  | Decimal.D3 u => "3"%byte :: uint_bytes u
  | Decimal.D4 u => "4"%byte :: uint_bytes u
  | Decimal.D5 u => "5"%byte :: uint_bytes u
  | Decimal.D6 u => "6"%byte :: uint_bytes u
  | Decimal.D7 u => "7"%byte :: uint_bytes u
  | Decimal.D8 u => "8"%byte :: uint_bytes u
  | Decimal.D9 u => "9"%byte :: uint_bytes u
  end.

(** The decimal digits of a non-negative integer, [0] as one digit. *)
Definition decimal (u : Z) : bytes := uint_bytes (N.to_uint (Z.to_N u)).

(** [appendInt(b, x, width)]: a minus sign if [x] is negative, then the
    digits of its magnitude, padded with zeros on the left to [width]. *)
Definition appendInt (b : bytes) (x : Z) (width : nat) : bytes :=
  let sign := if x <? 0 then ["-"%byte] else [] in
  let digits := decimal (Z.abs x) in
  b ++ sign ++ repeat "0"%byte (width - List.length digits) ++ digits.

(** [appendNano(b, nanosec, std)] for a [stdFracSecond0] of [n] digits:
    the period, then the first [n] of the nine digits. *)
Definition appendNano (b : bytes) (nanosec : Z) (n : nat) : bytes :=
  b ++ "."%byte :: firstn n (appendInt [] nanosec 9).

(** One element of [Format]. *)
Definition format_std (t : time_Time) (b : bytes) (s : std) : bytes :=
  let '(year, month, day) := time_Date_of t in
  let '(hour, min, sec) := time_Clock t in
  match s with
  | stdLongYear => appendInt b year 4
  | stdZeroMonth => appendInt b month 2
  | stdZeroDay => appendInt b day 2
  | stdHour => appendInt b hour 2
  | stdZeroMinute => appendInt b min 2
  | stdZeroSecond => appendInt b sec 2
  | stdFracSecond0 n => appendNano b (nsec t) n
  end.

(** [t.Format(layout)]: every element rendered from the wall clock of the
    time's own location, the literal text copied. *)
Definition time_Format (t : time_Time) (l : layout) : bytes :=
  fold_left (fun b c => format_std t (b ++ fst c) (snd c)) (chunks l) [] ++ suffix l.

(** *** Parse *)

(** The result of a step that can fail. *)
Inductive res (E A : Type) : Type :=
| Ok (a : A)
| Err (e : E).
Arguments Ok {E A} a.
Arguments Err {E A} e.

Definition bind {E A B : Type} (r : res E A) (k : A -> res E B) : res E B :=
  match r with
  | Ok a => k a
  | Err e => Err e
  end.

Notation "x <- r ;; k" := (bind r (fun x => k))
  (at level 61, r at next level, right associativity).
Notation "' p <- r ;; k" := (bind r (fun x => let 'p := x in k))
  (at level 61, p pattern, r at next level, right associativity).

(** The sentinel errors [errBad], [errAtoi] and [errLeadingInt]; [parse]
    replaces each by a [ParseError]. *)
Inductive errbad : Type := errBad | errAtoi | errLeadingInt.

Definition byte_Z (c : byte) : Z := Z.of_N (Byte.to_N c).

Definition is_digit_byte (c : byte) : bool :=
  (byte_Z "0" <=? byte_Z c) && (byte_Z c <=? byte_Z "9").

(** [isDigit(s, i)]. *)
Definition isDigit (s : bytes) (i : nat) : bool :=
  match nth_error s i with
  | Some c => is_digit_byte c
  | None => false
  end.

(** [leadingInt(s)]: the leading digits of [s] as a number and the rest
    of [s]; an error when the number leaves 63 bits. *)
Fixpoint leadingInt_from (x : Z) (s : bytes) : res errbad (Z * bytes) :=
  match s with
  | [] => Ok (x, [])
  | c :: s' =>
      if negb (is_digit_byte c) then Ok (x, s)
      else if x >? 2 ^ 63 / 10 then Err errLeadingInt
      else
        let x := x * 10 + byte_Z c - byte_Z "0" in
        if x >? 2 ^ 63 then Err errLeadingInt
        else leadingInt_from x s'
  end.

Definition leadingInt (s : bytes) : res errbad (Z * bytes) := leadingInt_from 0 s.

(** [atoi(s)]: an optional sign, then digits up to the end. *)
Definition atoi (s : bytes) : res errbad Z :=
  let '(neg, s) :=
    match s with
    | c :: s' =>
        if Byte.eqb c "-" || Byte.eqb c "+" then (Byte.eqb c "-", s') else (false, s)
    | [] => (false, s)
    end in
  match leadingInt s with
  | Ok (q, []) => Ok (if neg : bool then - q else q)
  | _ => Err errAtoi
  end.

(** [getnum(s, fixed)]: one or two digits, exactly two when [fixed]. *)
Definition getnum (s : bytes) (fixed : bool) : res errbad (Z * bytes) :=
  if negb (isDigit s 0) then Err errBad
  else if negb (isDigit s 1) then
    if fixed then Err errBad
    else Ok (byte_Z (nth 0 s "0"%byte) - byte_Z "0", skipn 1 s)
  else
    Ok ((byte_Z (nth 0 s "0"%byte) - byte_Z "0") * 10
        + (byte_Z (nth 1 s "0"%byte) - byte_Z "0"), skipn 2 s).

(** [skip(value, prefix)] for a prefix without spaces, which is all that
    [tsLayout] has: the value must start with the prefix.  The first
    component is the value left where the comparison stopped. *)
Fixpoint skip (value prefix : bytes) : bytes * option errbad :=
  match prefix with
  | [] => (value, None)
  | p :: prefix' =>
      match value with
      | v :: value' =>
          if negb (Byte.eqb v p) then (value, Some errBad) else skip value' prefix'
      | [] => (value, Some errBad)
      end
  end.

Definition commaOrPeriod (c : byte) : bool :=
  Byte.eqb c "." || Byte.eqb c ",".

(** [parseNanoseconds(value, nbytes)], called with [nbytes <= len(value)]:
    a separator and [nbytes - 1] digits, scaled to nanoseconds.  The
    second component is [rangeErrString]. *)
Definition parseNanoseconds (value : bytes) (nbytes : nat)
  : res errbad (Z * string) :=
  match value with
  | [] => Err errBad
  | c :: _ =>
      if negb (commaOrPeriod c) then Err errBad
      else
        let '(value, nbytes) :=
          if (10 <? nbytes)%nat then (firstn 10 value, 10%nat) else (value, nbytes) in
        ns <- atoi (skipn 1 (firstn nbytes value)) ;;
        if ns <? 0 then Ok (ns, "fractional second"%string)
        else Ok (ns * 10 ^ Z.of_nat (10 - nbytes), EmptyString)
  end.

(** The variables of [parse] that the elements of [tsLayout] assign. *)
Record fields : Type := mkFields {
  f_year : Z;
  f_month : Z;
  f_day : Z;
  f_hour : Z;
  f_min : Z;
  f_sec : Z;
  f_nsec : Z
}.

Definition fields_init : fields := mkFields 0 (-1) (-1) 0 0 0 0.

(** What one pass through the [switch] of [parse] leaves behind. *)
Record step : Type := mkStep {
  s_fields : fields;
  s_value : bytes;
  s_hold : bytes;
  s_range : string;
  s_err : option errbad
}.

(** [getnum] with Go's results on failure: zero and the value as it was. *)
Definition getnum3 (value : bytes) (fixed : bool) : Z * bytes * option errbad :=
  match getnum value fixed with
  | Ok (n, rest) => (n, rest, None)
  | Err e => (0, value, Some e)
  end.

Definition range_if (c : bool) (what : string) : string :=
  if c then what else EmptyString.

(** The number of bytes of [value], from index 2 on, that are digits. *)
Definition digit_run (value : bytes) : nat :=
  (fix run (s : bytes) : nat :=
     match s with
     | c :: s' => if is_digit_byte c then S (run s') else O
     | [] => O
     end) (skipn 2 value).

(** The [switch] of [parse] on one element; [next] is the element that
    follows in the layout, which the seconds look at. *)
Definition parse_std (s : std) (next : option std) (value : bytes) (st : fields)
  : step :=
  let hold := value in
  match s with
  | stdLongYear =>
      if (List.length value <? 4)%nat || negb (isDigit value 0)
      then mkStep st value hold EmptyString (Some errBad)
      else
        let p := firstn 4 value in
        let value := skipn 4 value in
        match atoi p with
        | Ok year =>
            mkStep (mkFields year (f_month st) (f_day st) (f_hour st) (f_min st)
                      (f_sec st) (f_nsec st)) value hold EmptyString None
        | Err e =>
            mkStep (mkFields 0 (f_month st) (f_day st) (f_hour st) (f_min st)
                      (f_sec st) (f_nsec st)) value hold EmptyString (Some e)
        end
  | stdZeroMonth =>
      let '(month, value, err) := getnum3 value true in
      mkStep (mkFields (f_year st) month (f_day st) (f_hour st) (f_min st)
                (f_sec st) (f_nsec st)) value hold
        (match err with
         | None => range_if ((month <=? 0) || (12 <? month)) "month"
         | Some _ => EmptyString
         end) err
  | stdZeroDay =>
      let '(day, value, err) := getnum3 value true in
      mkStep (mkFields (f_year st) (f_month st) day (f_hour st) (f_min st)
                (f_sec st) (f_nsec st)) value hold EmptyString err
  | stdHour =>
      let '(hour, value, err) := getnum3 value false in
      mkStep (mkFields (f_year st) (f_month st) (f_day st) hour (f_min st)
                (f_sec st) (f_nsec st)) value hold
        (range_if ((hour <? 0) || (24 <=? hour)) "hour") err
  | stdZeroMinute =>
      let '(min, value, err) := getnum3 value true in
      mkStep (mkFields (f_year st) (f_month st) (f_day st) (f_hour st) min
                (f_sec st) (f_nsec st)) value hold
        (range_if ((min <? 0) || (60 <=? min)) "minute") err
  | stdZeroSecond =>
      let '(sec, value, err) := getnum3 value true in
      let st := mkFields (f_year st) (f_month st) (f_day st) (f_hour st) (f_min st)
                  sec (f_nsec st) in
      match err with
      | Some _ => mkStep st value hold EmptyString err
      | None =>
          if (sec <? 0) || (60 <=? sec) then mkStep st value hold "second" None
          else if (2 <=? List.length value)%nat
                  && commaOrPeriod (nth 0 value "0"%byte) && isDigit value 1
          then
            match next with
            | Some (stdFracSecond0 _) => mkStep st value hold EmptyString None
            | _ =>
                let n := (2 + digit_run value)%nat in
                let rest := skipn n value in
                match parseNanoseconds value n with
                | Ok (ns, range) =>
                    mkStep (mkFields (f_year st) (f_month st) (f_day st) (f_hour st)
                              (f_min st) (f_sec st) ns) rest hold range None
                | Err e => mkStep st rest hold EmptyString (Some e)
                end
            end
          else mkStep st value hold EmptyString None
      end
  | stdFracSecond0 n =>
      let ndigit := (1 + n)%nat in
      if (List.length value <? ndigit)%nat
      then mkStep st value hold EmptyString (Some errBad)
      else
        let rest := skipn ndigit value in
        match parseNanoseconds value ndigit with
        | Ok (ns, range) =>
            mkStep (mkFields (f_year st) (f_month st) (f_day st) (f_hour st)
                      (f_min st) (f_sec st) ns) rest hold range None
        | Err e => mkStep st rest hold EmptyString (Some e)
        end
  end.

(** The loop of [parse] over the elements of the layout. *)
Fixpoint parse_chunks (alayout avalue : bytes) (cs : list (bytes * std))
    (value : bytes) (st : fields) : res error (fields * bytes) :=
  match cs with
  | [] => Ok (st, value)
  | (prefix, s) :: cs' =>
      match skip value prefix with
      | (value, Some _) => Err (ParseError alayout avalue prefix value MsgNone)
      | (value, None) =>
          let r := parse_std s (option_map snd (hd_error cs')) value st in
          if negb (String.eqb (s_range r) EmptyString)
          then Err (ParseError alayout avalue (std_text s) (s_value r)
                      (MsgOutOfRange (s_range r)))
          else
            match s_err r with
            | Some _ => Err (ParseError alayout avalue (std_text s) (s_hold r) MsgNone)
            | None => parse_chunks alayout avalue cs' (s_value r) (s_fields r)
            end
      end
  end.

(** [time.Parse(layout, value)]: the elements, then the literal text
    after the last one, then nothing more; the day is checked against
    the month at the end and the time is built in UTC. *)
Definition time_Parse (l : layout) (value : bytes) : res error time_Time :=
  let alayout := layout_text l in
  let avalue := value in
  '(st, value) <- parse_chunks alayout avalue (chunks l) value fields_init ;;
  match skip value (suffix l) with
  | (value, Some _) => Err (ParseError alayout avalue (suffix l) value MsgNone)
  | (value, None) =>
      if negb (List.length value =? 0)%nat
      then Err (ParseError alayout avalue [] value (MsgExtraText value))
      else
        let month := if f_month st <? 0 then 1 else f_month st in
        let day := if f_day st <? 0 then 1 else f_day st in
        if (day <? 1) || (day >? daysIn month (f_year st))
        then Err (ParseError alayout avalue [] value (MsgOutOfRange "day"))
        else Ok (time_Date (f_year st) month day (f_hour st) (f_min st) (f_sec st)
                   (f_nsec st) UTC)
  end.

(** ** Timestamp *)

(** [type Timestamp time.Time]. *)
Definition Timestamp : Type := time_Time.

Definition Timestamp_MarshalJSON (t : Timestamp) : marshaled :=
  let tm := t in
  if time_IsZero tm then (tszero, None)
  else (time_Format tm tsLayout_chunks, None).

Definition Timestamp_UnmarshalJSON (t : Timestamp) (b : bytes)
  : Timestamp * option error :=
  if bytes_Equal tszero b then (time_zero, None)
  else
    match time_Parse tsLayout_chunks b with
    | Err err => (t, Some err)
    | Ok tm => (tm, None)
    end.

(** ** Time *)

(** When a reminder should notify the user. *)
Record Time : Type := mkReminderTime {
  Year : Z;
  Month : Z;
  Day : Z;
  Period_ : Period;
  Hour : Z;
  Minute : Z;
  Second : Z
}.

(** The method [Time] of [Time]; [local] is what [time.Now().Location()] returns when
    the method runs.  A [Period] that is none of the five constants
    leaves [h], [m] and [s] at zero. *)
Definition Time_Time (local : Location) (t : Time) : time_Time :=
  let '(h, m, s) :=
    if Period_ t =? SpecificTime then (Hour t, Minute t, Second t)
    else if Period_ t =? Morning then (9, 0, 0)
    else if Period_ t =? Afternoon then (13, 0, 0)
    else if Period_ t =? Evening then (17, 0, 0)
    else if Period_ t =? Night then (20, 0, 0)
    else (0, 0, 0) in
  time_Date (Year t) (Month t) (Day t) h m s 0 local.

(** ** Go's [encoding/json] on a [Time]

    [json.Marshal] of a struct whose fields are integers or [Period]s:
    the struct encoder, the [omitempty] test, the integer encoder and the
    encoder of a type with a [MarshalJSON] method. *)

(** [strconv.AppendInt(b, i, 10)]. *)
Definition strconv_AppendInt (b : bytes) (i : Z) : bytes :=
  b ++ (if i <? 0 then ["-"%byte] else []) ++ decimal (Z.abs i).

(** The value of a field of [Time]. *)
Inductive fieldval : Type :=
| IntVal (i : Z)
| PeriodVal (p : Period).

(** A struct field as its tag describes it. *)
Record field : Type := mkField {
  name : string;
  omitEmpty : bool;
  value : fieldval
}.

(** [isEmptyValue]: both kinds of value are of kind [reflect.Int], empty
    when zero. *)
Definition isEmptyValue (v : fieldval) : bool :=
  match v with
  | IntVal i => i =? 0
  | PeriodVal p => p =? 0
  end.

(** The encoder of a field value.  A [Period] goes through its
    [MarshalJSON]; an error is wrapped, and the bytes are copied as they
    are, since compacting leaves each of the four period tokens as it
    is. *)
Definition encode_value (v : fieldval) : res error bytes :=
  match v with
  | IntVal i => Ok (strconv_AppendInt [] i)
  | PeriodVal p =>
      match Period_MarshalJSON p with
      | (b, None) => Ok b
      | (_, Some err) => Err (MarshalerError "wire.Period" err)
      end
  end.

(** The loop of the struct encoder; [next] is the byte written before
    the next field, an opening brace until a field has been written. *)
Fixpoint encode_fields (fs : list field) (next : byte) (e : bytes)
  : res error (bytes * byte) :=
  match fs with
  | [] => Ok (e, next)
  | f :: fs' =>
      if omitEmpty f && isEmptyValue (value f) then encode_fields fs' next e
      else
        let e := e ++ [next] in
        let e := e ++ quoted (name f) ++ [":"%byte] in
        b <- encode_value (value f) ;;
        encode_fields fs' ","%byte (e ++ b)
  end.

Definition structEncoder (fs : list field) : res error bytes :=
  '(e, next) <- encode_fields fs "{"%byte [] ;;
  if Byte.eqb next "{" then Ok (e ++ lit "{}") else Ok (e ++ ["}"%byte]).

(** The fields of [Time] with their tags. *)
Definition Time_fields (t : Time) : list field :=
  [ mkField "year" false (IntVal (Year t));
    mkField "month" false (IntVal (Month t));
    mkField "day" false (IntVal (Day t));
    mkField "period" true (PeriodVal (Period_ t));
    mkField "hour" true (IntVal (Hour t));
    mkField "minute" true (IntVal (Minute t));
    mkField "second" true (IntVal (Second t)) ].

(** [json.Marshal(t)] for a [Time]. *)
Definition json_Marshal_Time (t : Time) : res error bytes :=
  structEncoder (Time_fields t).

(** The struct of the package's test, [foo], with its one field: a
    [Period] named [When], tagged omitempty. *)
Definition foo (When : Period) : list field :=
  [mkField "When" true (PeriodVal When)].

(** [pat] occurs in [s] as a run of consecutive bytes. *)
Definition occurs (pat s : bytes) : Prop :=
  exists pre post, s = pre ++ pat ++ post.

(** ** The calendar, date by date *)

(** The month and day part of [absDate], as a function of the leap test
    and the day of the year. *)
Definition md_of_yday (leap : bool) (yday : Z) : Z * Z :=
  let day := yday in
  if leap && (day =? 31 + 29 - 1) then (2, 29)
  else
    let day := if leap && (day >? 31 + 29 - 1) then day - 1 else day in
    let month := day / 31 in
    let end_ := daysBefore (month + 1) in
    let '(month, begin) :=
      if day >=? end_ then (month + 1, end_) else (month, daysBefore month) in
    (month + 1, day - begin + 1).

(** The day of the year of a date, from zero, as [time.Date] adds it up. *)
Definition yday_of (leap : bool) (month day : Z) : Z :=
  daysBefore (month - 1) + (if leap && (month >=? 3) then 1 else 0) + (day - 1).

Definition daysIn_leap (leap : bool) (m : Z) : Z :=
  if (m =? 2) && leap then 29 else daysBefore m - daysBefore (m - 1).

(** Every date of a year, leap or not, checked by computation. *)
Definition calendar_check (leap : bool) : bool :=
  forallb (fun m =>
    forallb (fun d =>
      let m := Z.of_nat m in
      let d := Z.of_nat d in
      if d <=? daysIn_leap leap m then
        let '(m', d') := md_of_yday leap (yday_of leap m d) in
        (m' =? m) && (d' =? d) && (yday_of leap m d <? (if leap then 366 else 365))
      else true) (seq 1 31)) (seq 1 12).

(** ** Properties the design asks of the codecs *)

(** The letter [p] does not occur in [s]. *)
Definition no_p (s : bytes) : bool :=
  forallb (fun c => negb (Byte.eqb c "p")) s.

(** The error of a literal tag that read something else; it carries the
    expected constant and the bytes observed. *)
Definition TagMismatch (expected observed : bytes) : error :=
  Errorf "expected %q got %q" [ArgBytes expected; ArgBytes observed].

(** The contract of a literal tag with constant [c]: encoding gives [c]
    and no error whatever the value; decoding leaves the value alone,
    succeeds exactly on [c], and otherwise reports the mismatch. *)
Definition literal_tag_contract {T : Type} (c : bytes)
    (marshal : T -> marshaled) (unmarshal : unmarshaler T) : Prop :=
  (forall k, marshal k = (c, None)) /\
  (forall k b, fst (unmarshal k b) = k) /\
  (forall k b, snd (unmarshal k b) = None <-> b = c) /\
  (forall k b, b <> c -> snd (unmarshal k b) = Some (TagMismatch c b)).

(** A decoder that fails leaves the value it was called on. *)
Definition atomic_on_error {T : Type} (unmarshal : unmarshaler T) : Prop :=
  forall v b v' e, unmarshal v b = (v', Some e) -> v' = v.

(** The tokens of the two closed sets. *)
Definition period_tokens : list bytes :=
  [quoted "MORNING"; quoted "AFTERNOON"; quoted "EVENING"; quoted "NIGHT"].

Definition color_tokens : list bytes :=
  [quoted "DEFAULT"; quoted "RED"; quoted "ORANGE"; quoted "YELLOW";
   quoted "GREEN"; quoted "TEAL"; quoted "BLUE"; quoted "GRAY"].

(** The hour each named period stands for. *)
Definition canonical_hour (p : Period) : option Z :=
  if p =? Morning then Some 9
  else if p =? Afternoon then Some 13
  else if p =? Evening then Some 17
  else if p =? Night then Some 20
  else None.

(** [v] survives encoding followed by decoding, whatever the target of
    the decoder held before. *)
Definition round_trips {T : Type} (marshal : T -> marshaled)
    (unmarshal : unmarshaler T) (v : T) : Prop :=
  forall v0, exists b, marshal v = (b, None) /\ unmarshal v0 b = (v, None).

(** The six wall-clock fields a [time.Time] shows in its location. *)
Definition wall_clock (t : time_Time) : Z * Z * Z * (Z * Z * Z) :=
  (time_Date_of t, time_Clock t).

(** A date of the calendar, and a time of day. *)
Definition valid_date (year month day : Z) : Prop :=
  1 <= month <= 12 /\ 1 <= day <= daysIn month year.

Definition valid_clock (hour min sec : Z) : Prop :=
  0 <= hour < 24 /\ 0 <= min < 60 /\ 0 <= sec < 60.

(** The offset [time.Date] takes off a wall clock that, read as UTC, is
    the Unix time [unix]. *)
Definition date_offset (l : Location) (unix : Z) : Z :=
  let '(offset, start, end_) := lookup l unix in
  if negb (offset =? 0) then
    let utc := unix - offset in
    if (utc <? start) || (utc >=? end_) then offset_at l utc else offset
  else 0.

(** The location is steady at a wall clock: at the instant [time.Date]
    returns for it, the offset in force is the offset that was taken
    off, so that the location shows this wall clock then.  It is not at
    a wall clock that a transition of the zone skips. *)
Definition zone_steady (l : Location) (unix : Z) : Prop :=
  offset_at l (unix - date_offset l unix) = date_offset l unix.

(** A date and time of day read as UTC, in Unix seconds. *)
Definition wall_unix (year month day hour min s : Z) : Z :=
  sec (time_Date year month day hour min s 0 UTC) - unixToInternal.

(** The time of day a [Time] stands for: the hour of a named period, the
    stored hour, minute and second of the specific-time period. *)
Definition derived_clock (t : Time) : Z * Z * Z :=
  match canonical_hour (Period_ t) with
  | Some h => (h, 0, 0)
  | None =>
      if Period_ t =? SpecificTime then (Hour t, Minute t, Second t)
      else (0, 0, 0)
  end.

(** A zone that is five hours west of UTC until 2024-03-10 07:00:00 UTC
    and four hours west from then until 2024-11-03 06:00:00 UTC, as the
    east of North America is: its clocks go from 02:00 to 03:00. *)
Definition spring_forward : Location :=
  mkLocation (fun unix =>
    if unix <? 1710054000 then (-18000, alpha, 1710054000)
    else if unix <? 1730613600 then (-14400, 1710054000, 1730613600)
    else (-18000, 1730613600, omega)).

(** An integer of at most nine digits; with 24 or 12 added it is still
    a 32-bit integer. *)
Definition small (x : Z) : Prop := - 10 ^ 9 <= x <= 10 ^ 9.

(** No two values share an encoding. *)
Definition injective_encoder {T : Type} (marshal : T -> marshaled) : Prop :=
  forall v w b, marshal v = (b, None) -> marshal w = (b, None) -> v = w.

(** Whether a decoder's second result is the nil error. *)
Definition accepted (r : option error) : bool :=
  match r with
  | None => true
  | Some _ => false
  end.

(** What each of the five tag decoders says of the same input. *)
Definition tag_verdicts (b : bytes) : list bool :=
  [ accepted (snd (NodeKind_UnmarshalJSON mkNodeKind b));
    accepted (snd (TSKind_UnmarshalJSON mkTSKind b));
    accepted (snd (NoteType_UnmarshalJSON mkNoteType b));
    accepted (snd (ListType_UnmarshalJSON mkListType b));
    accepted (snd (ItemType_UnmarshalJSON mkItemType b)) ].

(** ** Decimal digits, for the text of a timestamp *)

(** The byte of a decimal digit. *)
Definition digit (a : Z) : byte :=
  nth (Z.to_nat a)
    ["0"; "1"; "2"; "3"; "4"; "5"; "6"; "7"; "8"; "9"]%byte "0"%byte.

(** The [w] low decimal digits of [n], the most significant first. *)
Fixpoint digits_of (w : nat) (n : Z) : bytes :=
  match w with
  | O => []
  | S w' => digits_of w' (n / 10) ++ [digit (n mod 10)]
  end.

(** A digit put in front of a [Decimal.uint]. *)
Definition dig (a : Z) (u : Decimal.uint) : Decimal.uint :=
  nth (Z.to_nat a)
    [Decimal.D0; Decimal.D1; Decimal.D2; Decimal.D3; Decimal.D4;
     Decimal.D5; Decimal.D6; Decimal.D7; Decimal.D8; Decimal.D9] Decimal.D0 u.

(** The [w] low digits of [n] as a [Decimal.uint], the least significant
    first. *)
Fixpoint lu (w : nat) (n : Z) : Decimal.uint :=
  match w with
  | O => Decimal.Nil
  | S w' => dig (n mod 10) (lu w' (n / 10))
  end.

(** The text of an instant in the pattern of [tsLayout]. *)
Definition stamp (y m d h mi s ms : Z) : bytes :=
  digits_of 4 y ++ lit "-" ++ digits_of 2 m ++ lit "-" ++ digits_of 2 d ++
  lit "T" ++ digits_of 2 h ++ lit ":" ++ digits_of 2 mi ++ lit ":" ++
  digits_of 2 s ++ lit "." ++ digits_of 3 ms ++ lit "Z".

(** A text in the shape of the layout with the hour and the fraction
    digits left open. *)
Definition stamp_with (hh frac : bytes) (y m d mi s : Z) : bytes :=
  digits_of 4 y ++ lit "-" ++ digits_of 2 m ++ lit "-" ++ digits_of 2 d ++
  lit "T" ++ hh ++ lit ":" ++ digits_of 2 mi ++ lit ":" ++
  digits_of 2 s ++ lit "." ++ frac ++ lit "Z".

(** The hour element reads [h] from the text [hh]. *)
Definition reads_hour (hh : bytes) (h : Z) : Prop :=
  forall next rest st,
    parse_std stdHour next (hh ++ lit ":" ++ rest) st =
    mkStep (mkFields (f_year st) (f_month st) (f_day st) h (f_min st) (f_sec st)
              (f_nsec st)) (lit ":" ++ rest) (hh ++ lit ":" ++ rest)
      EmptyString None.

(** * Proofs *)

(** ** Byte slices *)

Lemma bytes_Equal_eq (a b : bytes) : bytes_Equal a b = true <-> a = b.
Proof.
  revert b; induction a as [|x a IH]; intros [|y b]; simpl;
    try (split; [discriminate | discriminate]); try tauto.
  rewrite andb_true_iff, IH. split.
  - intros [Hxy ->]. apply Byte.byte_dec_bl in Hxy. now subst.
  - intros [= -> ->]. split; [now apply Byte.byte_dec_lb | reflexivity].
Qed.

Lemma bytes_Equal_refl (a : bytes) : bytes_Equal a a = true.
Proof. now apply bytes_Equal_eq. Qed.

Lemma bytes_Equal_neq (a b : bytes) : a <> b -> bytes_Equal a b = false.
Proof.
  intros Hne. destruct (bytes_Equal a b) eqn:E; [|reflexivity].
  apply bytes_Equal_eq in E. contradiction.
Qed.

(** Decide every [bytes.Equal] test in the goal, keeping what each one
    says about the input. *)
Ltac case_Equal :=
  repeat match goal with
  | |- context [bytes_Equal ?c ?b] =>
      let E := fresh "E" in
      destruct (bytes_Equal c b) eqn:E;
      [apply bytes_Equal_eq in E; try subst b | ]
  end.

Lemma layout_text_tsLayout : layout_text tsLayout_chunks = tsLayout.
Proof. reflexivity. Qed.

(** ** Literal tags *)

Section LiteralTag.
Variable T : Type.
Variable c : bytes.
Variable marshal : T -> marshaled.
Variable unmarshal : unmarshaler T.
Hypothesis marshal_eq : forall k, marshal k = (c, None).
Hypothesis unmarshal_eq : forall k b,
  unmarshal k b =
  if negb (bytes_Equal c b)
  then (k, Some (Errorf "expected %q got %q" [ArgBytes c; ArgBytes b]))
  else (k, None).

Lemma literal_tag_contract_intro : literal_tag_contract c marshal unmarshal.
Proof.
  unfold literal_tag_contract. split; [exact marshal_eq|].
  split; [|split]; intros k b; rewrite unmarshal_eq.
  - now destruct (bytes_Equal c b).
  - destruct (bytes_Equal c b) eqn:E; simpl.
    + apply bytes_Equal_eq in E. now split.
    + split; [discriminate|]. intros ->.
      now rewrite bytes_Equal_refl in E.
  - intros Hne. rewrite bytes_Equal_neq by congruence. reflexivity.
Qed.
End LiteralTag.

(** C5: each of the five literal tag types encodes to its constant,
    quoted, without error and whatever the value; decoding changes
    nothing, succeeds exactly when the input is byte-equal to the
    constant, and otherwise fails with the error that carries the
    expected constant and the observed bytes.  As an instance, the node
    kind read into the timestamps tag is rejected with both reported. *)
Theorem literal_tags_meet_contract :
  literal_tag_contract (quoted "notes#node") NodeKind_MarshalJSON NodeKind_UnmarshalJSON /\
  literal_tag_contract (quoted "notes#timestamps") TSKind_MarshalJSON TSKind_UnmarshalJSON /\
  literal_tag_contract (quoted "NOTE") NoteType_MarshalJSON NoteType_UnmarshalJSON /\
  literal_tag_contract (quoted "LIST") ListType_MarshalJSON ListType_UnmarshalJSON /\
  literal_tag_contract (quoted "LIST_ITEM") ItemType_MarshalJSON ItemType_UnmarshalJSON /\
  TSKind_UnmarshalJSON mkTSKind (quoted "notes#node") =
    (mkTSKind, Some (TagMismatch (quoted "notes#timestamps") (quoted "notes#node"))).
Proof.
  do 5 (split; [apply literal_tag_contract_intro; reflexivity|]).
  reflexivity.
Qed.

(** ** Enumerated tokens *)

Lemma Dismissed_UnmarshalJSON_unknown (d : Dismissed) (b : bytes) :
  b <> quoted "DISMISSED" -> b <> quoted "INITIAL" ->
  Dismissed_UnmarshalJSON d b =
  (d, Some (Errorf "expected %q or %q, got %q"
              [ArgBytes (quoted "DISMISSED"); ArgBytes (quoted "INITIAL"); ArgBytes b])).
Proof.
  intros H1 H2. unfold Dismissed_UnmarshalJSON.
  rewrite !bytes_Equal_neq
    by (intro; subst b; (now apply H1) || (now apply H2)).
  reflexivity.
Qed.

(** C1: encoding maps not-dismissed to INITIAL and dismissed to
    DISMISSED, and decoding DISMISSED yields dismissed; but decoding
    INITIAL also yields dismissed ([true]), not the not-dismissed variant
    the claim asks for. *)
Theorem Dismissed_decode_INITIAL_yields_dismissed :
  Dismissed_MarshalJSON false = (quoted "INITIAL", None) /\
  Dismissed_MarshalJSON true = (quoted "DISMISSED", None) /\
  Dismissed_UnmarshalJSON false (quoted "DISMISSED") = (true, None) /\
  Dismissed_UnmarshalJSON false (quoted "INITIAL") = (true, None) /\
  Dismissed_UnmarshalJSON false (quoted "INITIAL") <> (false, None).
Proof. repeat split; try reflexivity. discriminate. Qed.

Lemma round_trips_by_eval {T : Type} (marshal : T -> marshaled)
    (unmarshal : unmarshaler T) (v : T) (b : bytes) :
  marshal v = (b, None) -> (forall v0, unmarshal v0 b = (v, None)) ->
  round_trips marshal unmarshal v.
Proof. intros Hm Hu v0. exists b. split; [exact Hm | apply Hu]. Qed.

(** C4: the four named periods, the eight colors and the dismissed
    variant decode from their own encoding to themselves; the
    not-dismissed variant does not: its encoding, INITIAL, decodes to
    dismissed. *)
Theorem round_trip_fails_for_not_dismissed :
  Forall (round_trips Period_MarshalJSON Period_UnmarshalJSON)
    [Morning; Afternoon; Evening; Night] /\
  Forall (round_trips Color_MarshalJSON Color_UnmarshalJSON)
    [DefaultColor; Red; Orange; Yellow; Green; Teal; Blue; Gray] /\
  round_trips Dismissed_MarshalJSON Dismissed_UnmarshalJSON true /\
  ~ round_trips Dismissed_MarshalJSON Dismissed_UnmarshalJSON false /\
  Dismissed_UnmarshalJSON false (fst (Dismissed_MarshalJSON false)) = (true, None).
Proof.
  split; [|split; [|split; [|split]]].
  - repeat constructor; eapply round_trips_by_eval; reflexivity.
  - repeat constructor; eapply round_trips_by_eval; reflexivity.
  - eapply round_trips_by_eval; reflexivity.
  - intros H. destruct (H false) as (b & Hm & Hu).
    injection Hm as <-. discriminate Hu.
  - reflexivity.
Qed.

Lemma Period_UnmarshalJSON_unknown (p : Period) (b : bytes) :
  ~ In b period_tokens ->
  Period_UnmarshalJSON p b =
  (p, Some (Errorf "unexpected Period value %q" [ArgBytes b])).
Proof.
  intros Hn. unfold Period_UnmarshalJSON.
  case_Equal; try reflexivity; exfalso; apply Hn; simpl; tauto.
Qed.

Lemma Color_UnmarshalJSON_unknown (c : Color) (b : bytes) :
  ~ In b color_tokens ->
  Color_UnmarshalJSON c b =
  (c, Some (Errorf "unexpected Color value %q" [ArgBytes b])).
Proof.
  intros Hn. unfold Color_UnmarshalJSON.
  case_Equal; try reflexivity; exfalso; apply Hn; simpl; tauto.
Qed.

(** C8: a token outside the four period tokens, or outside the eight
    color tokens, is rejected with the unexpected-value error that
    carries it, MIDNIGHT and PURPLE among them; each of the four period
    tokens and each of the eight color tokens decodes to its variant. *)
Theorem unknown_tokens_rejected :
  (forall p b, ~ In b period_tokens ->
     Period_UnmarshalJSON p b =
     (p, Some (Errorf "unexpected Period value %q" [ArgBytes b]))) /\
  (forall c b, ~ In b color_tokens ->
     Color_UnmarshalJSON c b =
     (c, Some (Errorf "unexpected Color value %q" [ArgBytes b]))) /\
  (forall p, Period_UnmarshalJSON p (quoted "MIDNIGHT") =
     (p, Some (Errorf "unexpected Period value %q" [ArgBytes (quoted "MIDNIGHT")]))) /\
  (forall c, Color_UnmarshalJSON c (quoted "PURPLE") =
     (c, Some (Errorf "unexpected Color value %q" [ArgBytes (quoted "PURPLE")]))) /\
  (forall p, map (Period_UnmarshalJSON p) period_tokens =
     [(Morning, None); (Afternoon, None); (Evening, None); (Night, None)]) /\
  (forall c, map (Color_UnmarshalJSON c) color_tokens =
     [(DefaultColor, None); (Red, None); (Orange, None); (Yellow, None);
      (Green, None); (Teal, None); (Blue, None); (Gray, None)]).
Proof.
  split; [exact Period_UnmarshalJSON_unknown|].
  split; [exact Color_UnmarshalJSON_unknown|].
  repeat split; reflexivity.
Qed.

Lemma unknown_tokens_rejected_witness :
  ~ In (lit "MORNING") period_tokens /\
  Period_UnmarshalJSON Evening (lit "MORNING") =
  (Evening, Some (Errorf "unexpected Period value %q" [ArgBytes (lit "MORNING")])).
Proof.
  assert (Hn : ~ In (lit "MORNING") period_tokens).
  { simpl. intros [H|[H|[H|[H|[]]]]]; discriminate H. }
  split; [exact Hn|].
  exact (proj1 unknown_tokens_rejected Evening (lit "MORNING") Hn).
Defined.

(** ** Decoders leave the target alone when they fail *)

(** C9: when the decoder of a period, a color, a timestamp or a
    dismissed flag returns an error, the value it was called on is the
    value left in place. *)
Theorem decode_atomic_on_error :
  atomic_on_error Period_UnmarshalJSON /\
  atomic_on_error Color_UnmarshalJSON /\
  atomic_on_error Timestamp_UnmarshalJSON /\
  atomic_on_error Dismissed_UnmarshalJSON.
Proof.
  repeat split; intros v b v' e.
  - unfold Period_UnmarshalJSON.
    repeat (destruct (bytes_Equal _ b); [discriminate|]). now intros [= <- _].
  - unfold Color_UnmarshalJSON.
    repeat (destruct (bytes_Equal _ b); [discriminate|]). now intros [= <- _].
  - unfold Timestamp_UnmarshalJSON.
    destruct (bytes_Equal _ b); [discriminate|].
    destruct (time_Parse _ b); [discriminate|]. now intros [= <- _].
  - unfold Dismissed_UnmarshalJSON.
    repeat (destruct (bytes_Equal _ b); [discriminate|]). now intros [= <- _].
Qed.

Lemma decode_atomic_on_error_witness :
  snd (Timestamp_UnmarshalJSON (time_Date 2024 3 5 12 0 0 0 UTC) (lit "yesterday")) =
    Some (ParseError tsLayout (lit "yesterday") (lit "2006") (lit "yesterday") MsgNone) /\
  fst (Timestamp_UnmarshalJSON (time_Date 2024 3 5 12 0 0 0 UTC) (lit "yesterday")) =
    time_Date 2024 3 5 12 0 0 0 UTC.
Proof.
  split; [vm_compute; reflexivity|].
  apply (proj1 (proj2 (proj2 decode_atomic_on_error))
           (time_Date 2024 3 5 12 0 0 0 UTC) (lit "yesterday") _
           (ParseError tsLayout (lit "yesterday") (lit "2006") (lit "yesterday") MsgNone)).
  vm_compute. reflexivity.
Defined.

(** ** The default period *)

Lemma no_p_app (s1 s2 : bytes) : no_p (s1 ++ s2) = no_p s1 && no_p s2.
Proof. apply forallb_app. Qed.

Lemma no_p_cons (c : byte) (s : bytes) :
  no_p (c :: s) = negb (Byte.eqb c "p") && no_p s.
Proof. reflexivity. Qed.

Lemma no_p_uint_bytes (u : Decimal.uint) : no_p (uint_bytes u) = true.
Proof. induction u; simpl; auto. Qed.

Lemma no_p_AppendInt (i : Z) : no_p (strconv_AppendInt [] i) = true.
Proof.
  unfold strconv_AppendInt, decimal. simpl.
  rewrite no_p_app, no_p_uint_bytes. now destruct (i <? 0).
Qed.

Lemma no_p_not_occurs (s : bytes) :
  no_p s = true -> ~ occurs (quoted "period") s.
Proof.
  intros Hs (pre & post & ->).
  rewrite no_p_app in Hs. apply andb_true_iff in Hs as [_ Hs].
  discriminate Hs.
Qed.

(** With the period unset, the struct encoder writes what it writes for
    the same fields without the period. *)
Lemma encode_Time_without_period (t : Time) :
  Period_ t = SpecificTime ->
  json_Marshal_Time t =
  structEncoder
    (filter (fun f => negb (String.eqb (name f) "period")) (Time_fields t)).
Proof.
  intros Hp. unfold json_Marshal_Time, structEncoder, Time_fields.
  rewrite Hp. reflexivity.
Qed.

Lemma encode_Time_no_p (t : Time) :
  Period_ t = SpecificTime ->
  exists out, json_Marshal_Time t = Ok out /\ no_p out = true.
Proof.
  intros Hp. unfold json_Marshal_Time, structEncoder, Time_fields.
  rewrite Hp. simpl.
  destruct (Hour t =? 0), (Minute t =? 0), (Second t =? 0); simpl;
    eexists; (split; [reflexivity|]);
    repeat (rewrite no_p_app || rewrite no_p_AppendInt || rewrite no_p_cons);
    reflexivity.
Qed.

(** C6: [Period.MarshalJSON] on the default variant returns an error and
    no token; [json.Marshal] of a [Time] whose period is the default
    succeeds, and its output is the object of the other fields, in which
    no ["period"] key occurs. *)
Theorem default_period_is_error_and_omitted :
  Period_MarshalJSON SpecificTime =
    ([], Some (Errorf "unsupported period value %d" [ArgInt SpecificTime])) /\
  forall t, Period_ t = SpecificTime ->
    exists out,
      json_Marshal_Time t = Ok out /\
      ~ occurs (quoted "period") out /\
      structEncoder
        (filter (fun f => negb (String.eqb (name f) "period")) (Time_fields t))
      = Ok out.
Proof.
  split; [reflexivity|]. intros t Hp.
  destruct (encode_Time_no_p t Hp) as (out & Hout & Hno).
  exists out. split; [exact Hout|]. split.
  - now apply no_p_not_occurs.
  - now rewrite <- encode_Time_without_period.
Qed.

Lemma default_period_is_error_and_omitted_witness :
  Period_ (mkReminderTime 2024 3 5 SpecificTime 6 30 0) = SpecificTime /\
  exists out,
    json_Marshal_Time (mkReminderTime 2024 3 5 SpecificTime 6 30 0) = Ok out /\
    ~ occurs (quoted "period") out.
Proof.
  split; [reflexivity|].
  destruct (proj2 default_period_is_error_and_omitted
              (mkReminderTime 2024 3 5 SpecificTime 6 30 0) eq_refl)
    as (out & Hout & Hno & _).
  exists out. split; assumption.
Defined.

(** ** The calendar of [time.Date] *)

Lemma norm_in_range (hi lo base : Z) :
  0 <= lo < base -> norm hi lo base = (hi, lo).
Proof.
  intros H. unfold norm.
  destruct (Z.ltb_spec lo 0); [lia|].
  rewrite Z.geb_leb. destruct (Z.leb_spec base lo); [lia|]. reflexivity.
Qed.

Lemma isLeap_true_iff (y : Z) :
  isLeap y = true <-> y mod 4 = 0 /\ (y mod 100 <> 0 \/ y mod 400 = 0).
Proof.
  unfold isLeap.
  rewrite andb_true_iff, orb_true_iff, negb_true_iff, !Z.eqb_eq, Z.eqb_neq.
  rewrite !Z.rem_divide, !Z.mod_divide by lia. tauto.
Qed.

Lemma absClock_of_parts (d h m s : Z) :
  valid_clock h m s ->
  absClock (d * secondsPerDay + (h * secondsPerHour + m * secondsPerMinute + s))
  = (h, m, s).
Proof.
  unfold valid_clock, absClock, secondsPerDay, secondsPerHour, secondsPerMinute.
  intros (Hh & Hm & Hs).
  replace ((d * (24 * (60 * 60)) + (h * (60 * 60) + m * 60 + s)) mod (24 * (60 * 60)))
    with (h * 3600 + m * 60 + s)
    by (apply Z.mod_unique_pos with d; lia).
  replace ((h * 3600 + m * 60 + s) / (60 * 60)) with h
    by (apply Z.div_unique_pos with (m * 60 + s); lia).
  replace ((h * 3600 + m * 60 + s - h * (60 * 60)) / 60) with m
    by (apply Z.div_unique_pos with s; lia).
  repeat f_equal; lia.
Qed.


(** A year cut into its 400-, 100-, 4- and 1-year cycles. *)
Lemma year_cycles (y : Z) :
  exists a b c e,
    y = 400 * a + 100 * b + 4 * c + e + 1 /\
    0 <= b <= 3 /\ 0 <= c <= 24 /\ 0 <= e <= 3 /\
    daysSinceEpoch y = 146097 * a + 36524 * b + 1461 * c + 365 * e.
Proof.
  set (y0 := y - 1).
  set (n400 := y0 / 400). set (y1 := y0 - 400 * n400).
  set (n100 := y1 / 100). set (y2 := y1 - 100 * n100).
  set (n4 := y2 / 4). set (y3 := y2 - 4 * n4).
  exists n400, n100, n4, y3.
  assert (H1 : 0 <= y1 < 400).
  { subst y1 n400. pose proof (Z.mod_pos_bound y0 400) as H.
    rewrite Z.mod_eq in H; lia. }
  assert (H2 : 0 <= y2 < 100).
  { subst y2 n100. pose proof (Z.mod_pos_bound y1 100) as H.
    rewrite Z.mod_eq in H; lia. }
  assert (H3 : 0 <= y3 < 4).
  { subst y3 n4. pose proof (Z.mod_pos_bound y2 4) as H.
    rewrite Z.mod_eq in H; lia. }
  assert (0 <= n100 <= 3).
  { subst n100. split; [apply Z.div_pos; lia|].
    apply Z.lt_succ_r, Z.div_lt_upper_bound; lia. }
  assert (0 <= n4 <= 24).
  { subst n4. split; [apply Z.div_pos; lia|].
    apply Z.lt_succ_r, Z.div_lt_upper_bound; lia. }
  split; [|split; [|split; [|split]]]; try lia.
  unfold daysSinceEpoch, daysPer400Years, daysPer100Years, daysPer4Years.
  cbv zeta. fold y0. fold n400. fold y1. fold n100. fold y2. fold n4. fold y3.
  ring.
Qed.

Lemma isLeap_cycles (a b c e : Z) :
  0 <= b <= 3 -> 0 <= c <= 24 -> 0 <= e <= 3 ->
  isLeap (400 * a + 100 * b + 4 * c + e + 1) = true <->
  e = 3 /\ (c <> 24 \/ b = 3).
Proof.
  intros Hb Hc He. rewrite isLeap_true_iff.
  set (y := 400 * a + 100 * b + 4 * c + e + 1).
  assert (M4 : y mod 4 = (e + 1) mod 4).
  { subst y. replace (400 * a + 100 * b + 4 * c + e + 1)
      with (e + 1 + (100 * a + 25 * b + c) * 4) by lia.
    apply Z.mod_add; lia. }
  assert (M100 : y mod 100 = (4 * c + e + 1) mod 100).
  { subst y. replace (400 * a + 100 * b + 4 * c + e + 1)
      with (4 * c + e + 1 + (4 * a + b) * 100) by lia.
    apply Z.mod_add; lia. }
  assert (M400 : y mod 400 = (100 * b + 4 * c + e + 1) mod 400).
  { subst y. replace (400 * a + 100 * b + 4 * c + e + 1)
      with (100 * b + 4 * c + e + 1 + a * 400) by lia.
    apply Z.mod_add; lia. }
  rewrite M4, M100, M400. clearbody y. clear M4 M100 M400.
  assert (E4 : (e + 1) mod 4 = 0 <-> e = 3).
  { destruct (Z.eq_dec e 3) as [->|]; [now split|].
    rewrite Z.mod_small by lia. lia. }
  assert (E100 : (4 * c + e + 1) mod 100 = 0 <-> c = 24 /\ e = 3).
  { destruct (Z.eq_dec (4 * c + e + 1) 100) as [E|E].
    - rewrite E. split; [lia | reflexivity].
    - rewrite Z.mod_small by lia. lia. }
  assert (E400 : (100 * b + 4 * c + e + 1) mod 400 = 0 <-> b = 3 /\ c = 24 /\ e = 3).
  { destruct (Z.eq_dec (100 * b + 4 * c + e + 1) 400) as [E|E].
    - rewrite E. split; [lia | reflexivity].
    - rewrite Z.mod_small by lia. lia. }
  rewrite E4, E100, E400. lia.
Qed.

Lemma shiftr2_small (n : Z) : 0 <= n <= 3 -> Z.shiftr n 2 = 0.
Proof.
  intros H. rewrite Z.shiftr_div_pow2 by lia. apply Z.div_small. lia.
Qed.

Lemma absYearDay_of_parts (y yd s : Z) :
  0 <= s < secondsPerDay ->
  0 <= yd < (if isLeap y then 366 else 365) ->
  absYearDay ((daysSinceEpoch y + yd) * secondsPerDay + s) = (y, yd).
Proof.
  intros Hs Hyd.
  destruct (year_cycles y) as (a & b & c & e & Hy & Hb & Hc & He & Hd).
  assert (HL : yd = 365 -> e = 3 /\ (c <> 24 \/ b = 3)).
  { intros ->. apply (proj1 (isLeap_cycles a b c e Hb Hc He)). rewrite <- Hy.
    destruct (isLeap y); [reflexivity | lia]. }
  assert (Hyd' : 0 <= yd <= 365) by (destruct (isLeap y); lia).
  clear Hyd. rewrite Hd. clear Hd.
  unfold absYearDay. cbv zeta.
  replace ((146097 * a + 36524 * b + 1461 * c + 365 * e + yd) * secondsPerDay + s)
    with (s + (146097 * a + 36524 * b + 1461 * c + 365 * e + yd) * secondsPerDay)
    by ring.
  rewrite Z.div_add by (unfold secondsPerDay, secondsPerHour, secondsPerMinute; lia).
  rewrite (Z.div_small s) by lia. rewrite Z.add_0_l.
  set (d1 := 36524 * b + 1461 * c + 365 * e + yd).
  set (d2 := 1461 * c + 365 * e + yd).
  set (d3 := 365 * e + yd).
  assert (E1 : (146097 * a + 36524 * b + 1461 * c + 365 * e + yd) / daysPer400Years = a).
  { symmetry. apply Z.div_unique_pos with d1; unfold daysPer400Years; lia. }
  rewrite E1.
  replace (146097 * a + 36524 * b + 1461 * c + 365 * e + yd - daysPer400Years * a)
    with d1 by (unfold daysPer400Years; lia).
  assert (E2 : d1 / daysPer100Years - Z.shiftr (d1 / daysPer100Years) 2 = b).
  { unfold daysPer100Years.
    destruct (Z.eq_dec d2 36524) as [E|E].
    - assert (b = 3 /\ c = 24 /\ e = 3 /\ yd = 365) as (-> & -> & -> & ->) by lia.
      reflexivity.
    - replace (d1 / (365 * 100 + 24)) with b
        by (apply Z.div_unique_pos with d2; lia).
      rewrite shiftr2_small by lia. lia. }
  rewrite E2.
  replace (d1 - daysPer100Years * b) with d2 by (unfold daysPer100Years; lia).
  assert (E3 : d2 / daysPer4Years = c).
  { symmetry. apply Z.div_unique_pos with d3; unfold daysPer4Years; lia. }
  rewrite E3.
  replace (d2 - daysPer4Years * c) with d3 by (unfold daysPer4Years; lia).
  assert (E4 : d3 / 365 - Z.shiftr (d3 / 365) 2 = e).
  { destruct (Z.eq_dec yd 365) as [E|E].
    - destruct (HL E) as [-> _]. subst d3 yd. reflexivity.
    - replace (d3 / 365) with e by (apply Z.div_unique_pos with yd; lia).
      rewrite shiftr2_small by lia. lia. }
  rewrite E4. f_equal; lia.
Qed.

Lemma absDate_md (abs : Z) :
  absDate abs =
  let '(year, yday) := absYearDay abs in
  let '(m, d) := md_of_yday (isLeap year) yday in (year, m, d).
Proof.
  unfold absDate, md_of_yday. destruct (absYearDay abs) as [year yday].
  destruct (isLeap year && (yday =? 31 + 29 - 1)); [reflexivity|].
  cbv zeta. now destruct (_ >=? _).
Qed.

Lemma calendar_check_ok (leap : bool) : calendar_check leap = true.
Proof. destruct leap; vm_compute; reflexivity. Qed.

Lemma md_of_yday_of (leap : bool) (m d : Z) :
  1 <= m <= 12 -> 1 <= d <= daysIn_leap leap m ->
  md_of_yday leap (yday_of leap m d) = (m, d) /\
  0 <= yday_of leap m d < (if leap then 366 else 365).
Proof.
  intros Hm Hd.
  assert (Hd31 : d <= 31).
  { assert (daysIn_leap leap m <= 31); [|lia].
    assert (Hc : m = 1 \/ m = 2 \/ m = 3 \/ m = 4 \/ m = 5 \/ m = 6 \/ m = 7 \/
                 m = 8 \/ m = 9 \/ m = 10 \/ m = 11 \/ m = 12) by lia.
    destruct leap; repeat (destruct Hc as [->|Hc]; [vm_compute; discriminate|]);
      subst m; vm_compute; discriminate. }
  pose proof (calendar_check_ok leap) as H. unfold calendar_check in H.
  rewrite forallb_forall in H. specialize (H (Z.to_nat m)).
  rewrite forallb_forall in H.
  assert (Hin : In (Z.to_nat m) (seq 1 12)) by (apply in_seq; lia).
  specialize (H Hin (Z.to_nat d)).
  assert (Hin' : In (Z.to_nat d) (seq 1 31)) by (apply in_seq; lia).
  specialize (H Hin'). cbv zeta in H.
  rewrite !Z2Nat.id in H by lia.
  destruct (Z.leb_spec d (daysIn_leap leap m)); [|lia].
  destruct (md_of_yday leap (yday_of leap m d)) as [m' d'].
  apply andb_true_iff in H as [H H3]. apply andb_true_iff in H as [H1 H2].
  apply Z.eqb_eq in H1, H2. apply Z.ltb_lt in H3. rewrite H1, H2.
  split; [reflexivity|]. split; [|exact H3].
  unfold yday_of.
  assert (0 <= daysBefore (m - 1)).
  { assert (Hc : m = 1 \/ m = 2 \/ m = 3 \/ m = 4 \/ m = 5 \/ m = 6 \/ m = 7 \/
                 m = 8 \/ m = 9 \/ m = 10 \/ m = 11 \/ m = 12) by lia.
    clear - Hc.
    repeat (destruct Hc as [->|Hc]; [vm_compute; discriminate|]).
    subst m; vm_compute; discriminate. }
  destruct (leap && (m >=? 3)); lia.
Qed.

Lemma absDate_of_parts (y m d s : Z) :
  valid_date y m d -> 0 <= s < secondsPerDay ->
  absDate ((daysSinceEpoch y + yday_of (isLeap y) m d) * secondsPerDay + s) = (y, m, d).
Proof.
  intros [Hm Hd] Hs.
  destruct (md_of_yday_of (isLeap y) m d Hm Hd) as [Hmd Hyd].
  rewrite absDate_md, absYearDay_of_parts by assumption.
  now rewrite Hmd.
Qed.

(** [time.Date] in a location is [time.Date] in UTC, moved by the offset
    that the lookups in the location give. *)
Lemma time_Date_zone (year month day hour min s ns : Z) (l : Location) :
  time_Date year month day hour min s ns l =
  mkTime (sec (time_Date year month day hour min s ns UTC)
          - date_offset l
              (sec (time_Date year month day hour min s ns UTC) - unixToInternal))
    (nsec (time_Date year month day hour min s ns UTC)) l.
Proof.
  unfold time_Date.
  destruct (norm year (month - 1) 12) as [year' m'].
  destruct (norm s ns 1000000000) as [s' ns'].
  destruct (norm min s' 60) as [min' s''], (norm hour min' 60) as [hour' min''].
  destruct (norm day hour' 24) as [day' hour'']. cbv zeta.
  match goal with |- context [lookup l ?u] => set (U := u) end.
  cbn [lookup UTC FixedZone Z.eqb negb sec nsec].
  replace (U + unixToInternal - unixToInternal) with U by lia.
  unfold date_offset. destruct (lookup l U) as [[o st] en].
  destruct (negb (o =? 0)); [|f_equal; lia].
  destruct ((U - o <? st) || (U - o >=? en)); f_equal; lia.
Qed.

Lemma loc_Date (year month day hour min s ns : Z) (l : Location) :
  loc (time_Date year month day hour min s ns l) = l.
Proof. now rewrite time_Date_zone. Qed.

Lemma date_offset_fixed (o u : Z) : date_offset (FixedZone o) u = o.
Proof.
  unfold date_offset, offset_at. cbn [lookup FixedZone fst].
  destruct (Z.eqb_spec o 0) as [->|]; cbn [negb]; [reflexivity|].
  now destruct (_ || _).
Qed.

(** A zone of one offset is steady at every wall clock. *)
Lemma zone_steady_fixed (o u : Z) : zone_steady (FixedZone o) u.
Proof. unfold zone_steady. now rewrite date_offset_fixed. Qed.

Lemma sec_Date (year month day hour min s ns o : Z) :
  sec (time_Date year month day hour min s ns (FixedZone o)) =
  sec (time_Date year month day hour min s ns UTC) - o.
Proof. now rewrite time_Date_zone, date_offset_fixed. Qed.

Lemma time_abs_Date_UTC (year month day hour min s ns : Z) :
  time_abs (time_Date year month day hour min s ns UTC) =
  sec (time_Date year month day hour min s ns UTC).
Proof.
  unfold time_abs. rewrite loc_Date. unfold offset_at.
  cbn [lookup UTC FixedZone fst]. lia.
Qed.

(** In a location that is steady at the wall clock asked for, the time
    shows what it shows in UTC. *)
Lemma time_abs_Date (year month day hour min s ns : Z) (l : Location) :
  zone_steady l (sec (time_Date year month day hour min s ns UTC) - unixToInternal) ->
  time_abs (time_Date year month day hour min s ns l) =
  time_abs (time_Date year month day hour min s ns UTC).
Proof.
  intros Hs. rewrite time_abs_Date_UTC. rewrite time_Date_zone.
  unfold time_abs. cbn [sec loc]. unfold zone_steady in Hs.
  match goal with
  | |- context [offset_at l ?x] =>
      replace x with
        (sec (time_Date year month day hour min s ns UTC) - unixToInternal
         - date_offset l
             (sec (time_Date year month day hour min s ns UTC) - unixToInternal))
        by lia
  end.
  rewrite Hs. lia.
Qed.

(** The nanoseconds do not move the second when they are within it. *)
Lemma sec_Date_ns (y m d h mi s ns : Z) (l : Location) :
  0 <= ns < 1000000000 ->
  sec (time_Date y m d h mi s ns l) = sec (time_Date y m d h mi s 0 l).
Proof.
  intros Hns. unfold time_Date.
  rewrite (norm_in_range s ns) by lia. rewrite (norm_in_range s 0) by lia.
  destruct (norm y (m - 1) 12) as [year' m'].
  destruct (norm mi s 60) as [min' s''], (norm h min' 60) as [hour' min''].
  destruct (norm d hour' 24) as [day' hour'']. cbv zeta.
  destruct (lookup l _) as [[o st] en]. reflexivity.
Qed.

(** A calendar date and a time of day, built in UTC, read back as
    themselves. *)
Lemma wall_clock_Date_UTC (y m d h mi s ns : Z) :
  valid_date y m d -> valid_clock h mi s -> 0 <= ns < 1000000000 ->
  wall_clock (time_Date y m d h mi s ns UTC) = (y, m, d, (h, mi, s)).
Proof.
  intros Hd Hc Hns. unfold wall_clock, time_Date_of, time_Clock.
  rewrite time_abs_Date_UTC. unfold time_Date.
  pose proof Hd as [Hm Hdd]. pose proof Hc as (Hh & Hmi & Hs).
  rewrite !norm_in_range by lia.
  replace (m - 1 + 1) with m by lia.
  cbn [lookup UTC FixedZone Z.eqb negb sec].
  set (S := h * secondsPerHour + mi * secondsPerMinute + s).
  assert (HS : 0 <= S < secondsPerDay).
  { subst S. unfold secondsPerDay, secondsPerHour, secondsPerMinute. lia. }
  match goal with
  | |- context [absDate (?D * secondsPerDay + S - unixToInternal + unixToInternal)] =>
      replace (D * secondsPerDay + S - unixToInternal + unixToInternal)
        with ((daysSinceEpoch y + yday_of (isLeap y) m d) * secondsPerDay + S)
        by (unfold yday_of; destruct (isLeap y && (m >=? 3)); lia)
  end.
  rewrite absDate_of_parts by assumption.
  subst S. now rewrite absClock_of_parts.
Qed.

(** The same in a location that is steady at that wall clock. *)
Lemma wall_clock_Date (y m d h mi s ns : Z) (l : Location) :
  valid_date y m d -> valid_clock h mi s -> 0 <= ns < 1000000000 ->
  zone_steady l (wall_unix y m d h mi s) ->
  wall_clock (time_Date y m d h mi s ns l) = (y, m, d, (h, mi, s)).
Proof.
  intros Hd Hc Hns Hs.
  rewrite <- (wall_clock_Date_UTC y m d h mi s ns Hd Hc Hns).
  unfold wall_clock, time_Date_of, time_Clock.
  rewrite (time_abs_Date y m d h mi s ns l); [reflexivity|].
  unfold wall_unix in Hs. now rewrite (sec_Date_ns y m d h mi s ns UTC Hns).
Qed.

Lemma wall_clock_Date_fixed (y m d h mi s ns o : Z) :
  valid_date y m d -> valid_clock h mi s -> 0 <= ns < 1000000000 ->
  wall_clock (time_Date y m d h mi s ns (FixedZone o)) = (y, m, d, (h, mi, s)).
Proof.
  intros Hd Hc Hns. apply wall_clock_Date; try assumption.
  apply zone_steady_fixed.
Qed.

(** ** Time *)

Lemma valid_date_2024_3_5 : valid_date 2024 3 5.
Proof. unfold valid_date. vm_compute. intuition discriminate. Qed.

Lemma Time_Time_named (local : Location) (t : Time) (h : Z) :
  canonical_hour (Period_ t) = Some h ->
  Time_Time local t = time_Date (Year t) (Month t) (Day t) h 0 0 0 local.
Proof.
  unfold canonical_hour, Time_Time, Morning, Afternoon, Evening, Night, SpecificTime.
  destruct (Z.eqb_spec (Period_ t) 1) as [->|]; [now intros [= <-]|].
  destruct (Z.eqb_spec (Period_ t) 2) as [->|]; [now intros [= <-]|].
  destruct (Z.eqb_spec (Period_ t) 3) as [->|]; [now intros [= <-]|].
  destruct (Z.eqb_spec (Period_ t) 4) as [->|]; [now intros [= <-]|].
  discriminate.
Qed.

Lemma Time_Time_specific (local : Location) (t : Time) :
  Period_ t = SpecificTime ->
  Time_Time local t =
  time_Date (Year t) (Month t) (Day t) (Hour t) (Minute t) (Second t) 0 local.
Proof. intros Hp. unfold Time_Time. now rewrite Hp. Qed.

Lemma canonical_hour_valid (p : Period) (h : Z) :
  canonical_hour p = Some h -> valid_clock h 0 0.
Proof.
  unfold canonical_hour, valid_clock.
  repeat (destruct (_ =? _); [intros [= <-]; lia|]). discriminate.
Qed.

Lemma Time_Time_derived (local : Location) (t : Time) (h m s : Z) :
  derived_clock t = (h, m, s) ->
  Time_Time local t = time_Date (Year t) (Month t) (Day t) h m s 0 local.
Proof.
  unfold derived_clock, canonical_hour, Time_Time,
    Morning, Afternoon, Evening, Night, SpecificTime.
  destruct (Z.eqb_spec (Period_ t) 1) as [->|]; [now intros [= <- <- <-]|].
  destruct (Z.eqb_spec (Period_ t) 2) as [->|]; [now intros [= <- <- <-]|].
  destruct (Z.eqb_spec (Period_ t) 3) as [->|]; [now intros [= <- <- <-]|].
  destruct (Z.eqb_spec (Period_ t) 4) as [->|]; [now intros [= <- <- <-]|].
  destruct (Period_ t =? 0); now intros [= <- <- <-].
Qed.

(** C7 as stated fails on two kinds of [Time] value.  A stored day that
    the month does not have is carried over: the evening of a 30th of
    February 2024 is derived as 17:00:00 on the first of March.  And a
    stored time of day that the local zone skips is moved: where the
    clocks go from 02:00 to 03:00 on 2024-03-10, the specific time
    02:15:00 of that day is derived as 01:15:00. *)
Lemma Time_Time_derivation_counterexample :
  canonical_hour (Period_ (mkReminderTime 2024 2 30 Evening 0 0 0)) = Some 17 /\
  wall_clock (Time_Time UTC (mkReminderTime 2024 2 30 Evening 0 0 0)) =
    (2024, 3, 1, (17, 0, 0)) /\
  wall_clock (Time_Time UTC (mkReminderTime 2024 2 30 Evening 0 0 0)) <>
    (2024, 2, 30, (17, 0, 0)) /\
  Period_ (mkReminderTime 2024 3 10 SpecificTime 2 15 0) = SpecificTime /\
  wall_clock (Time_Time spring_forward (mkReminderTime 2024 3 10 SpecificTime 2 15 0)) =
    (2024, 3, 10, (1, 15, 0)) /\
  wall_clock (Time_Time spring_forward (mkReminderTime 2024 3 10 SpecificTime 2 15 0)) <>
    (2024, 3, 10, (2, 15, 0)).
Proof.
  split; [reflexivity|]. split; [vm_compute; reflexivity|].
  split; [vm_compute; discriminate|].
  split; [reflexivity|]. split; [vm_compute; reflexivity|].
  vm_compute; discriminate.
Qed.

(** C7, amended: on a [Time] whose year, month and day are a date of the
    calendar, in a year of at most nine digits, and in a local zone that
    is steady at the wall clock asked for (every zone of one fixed
    offset is, at every wall clock): for a named period the derived time
    shows the stored year, month and day at the period's hour (9, 13,
    17, 20), minute and second zero, whatever the hour, minute and
    second fields hold; for the specific-time period with a time of day
    in its fields it shows the stored date at the stored hour, minute
    and second.  The evening of 2024-03-05 gives 17:00:00 and 06:30 of
    that day gives 06:30:00, in every zone of a fixed offset. *)
Theorem Time_Time_on_calendar_dates (local : Location) (t : Time) :
  valid_date (Year t) (Month t) (Day t) ->
  small (Year t) ->
  (canonical_hour Morning = Some 9 /\ canonical_hour Afternoon = Some 13 /\
   canonical_hour Evening = Some 17 /\ canonical_hour Night = Some 20) /\
  (forall h, canonical_hour (Period_ t) = Some h ->
     zone_steady local (wall_unix (Year t) (Month t) (Day t) h 0 0) ->
     wall_clock (Time_Time local t) = (Year t, Month t, Day t, (h, 0, 0))) /\
  (Period_ t = SpecificTime ->
     valid_clock (Hour t) (Minute t) (Second t) ->
     zone_steady local
       (wall_unix (Year t) (Month t) (Day t) (Hour t) (Minute t) (Second t)) ->
     wall_clock (Time_Time local t) =
       (Year t, Month t, Day t, (Hour t, Minute t, Second t))) /\
  (forall o u, zone_steady (FixedZone o) u) /\
  (forall o h m s,
     wall_clock (Time_Time (FixedZone o) (mkReminderTime 2024 3 5 Evening h m s)) =
       (2024, 3, 5, (17, 0, 0))) /\
  (forall o,
     wall_clock (Time_Time (FixedZone o) (mkReminderTime 2024 3 5 SpecificTime 6 30 0)) =
       (2024, 3, 5, (6, 30, 0))).
Proof.
  intros Hd Hy.
  split; [repeat split|].
  split; [|split; [|split; [|split]]].
  - intros h Hh Hs. rewrite (Time_Time_named local t h Hh).
    apply wall_clock_Date; [assumption| |lia|assumption].
    now apply canonical_hour_valid with (Period_ t).
  - intros Hp Hc Hs. rewrite (Time_Time_specific local t Hp).
    apply wall_clock_Date; [assumption|assumption|lia|assumption].
  - exact zone_steady_fixed.
  - intros o h m s.
    rewrite (Time_Time_named (FixedZone o) (mkReminderTime 2024 3 5 Evening h m s) 17 eq_refl).
    cbn [Year Month Day].
    apply wall_clock_Date_fixed; [exact valid_date_2024_3_5 | unfold valid_clock; lia | lia].
  - intros o.
    rewrite (Time_Time_specific (FixedZone o) (mkReminderTime 2024 3 5 SpecificTime 6 30 0) eq_refl).
    cbn [Year Month Day Hour Minute Second].
    apply wall_clock_Date_fixed; [exact valid_date_2024_3_5 | unfold valid_clock; lia | lia].
Qed.

Lemma Time_Time_on_calendar_dates_witness :
  valid_date 2023 12 31 /\ small 2023 /\
  canonical_hour (Period_ (mkReminderTime 2023 12 31 Night 23 59 59)) = Some 20 /\
  zone_steady spring_forward (wall_unix 2023 12 31 20 0 0) /\
  wall_clock (Time_Time spring_forward (mkReminderTime 2023 12 31 Night 23 59 59)) =
    (2023, 12, 31, (20, 0, 0)).
Proof.
  assert (Hv : valid_date 2023 12 31).
  { unfold valid_date. vm_compute. intuition discriminate. }
  assert (Hy : small 2023) by (unfold small; lia).
  assert (Hs : zone_steady spring_forward (wall_unix 2023 12 31 20 0 0))
    by (unfold zone_steady; vm_compute; reflexivity).
  split; [exact Hv|]. split; [exact Hy|]. split; [reflexivity|].
  split; [exact Hs|].
  destruct (Time_Time_on_calendar_dates spring_forward
              (mkReminderTime 2023 12 31 Night 23 59 59) Hv Hy)
    as (_ & Hnamed & _).
  exact (Hnamed 20 eq_refl Hs).
Defined.

(** C10 as stated fails both ways.  Two different local zones that have
    the same offset at the wall clock asked for return the same instant:
    a morning in January 2024 is the same instant in a zone that is five
    hours west of UTC all year and in one that is so only in winter.
    And the wall-clock fields are not determined by the receiver alone:
    02:30:00 on 2024-03-10 comes back as 02:30:00 in UTC and as 01:30:00
    where the clocks skip that hour. *)
Lemma Time_Time_zone_counterexample :
  spring_forward <> FixedZone (-18000) /\
  sec (Time_Time spring_forward (mkReminderTime 2024 1 15 Morning 0 0 0)) =
    sec (Time_Time (FixedZone (-18000)) (mkReminderTime 2024 1 15 Morning 0 0 0)) /\
  wall_clock (Time_Time UTC (mkReminderTime 2024 3 10 SpecificTime 2 30 0)) =
    (2024, 3, 10, (2, 30, 0)) /\
  wall_clock (Time_Time spring_forward (mkReminderTime 2024 3 10 SpecificTime 2 30 0)) =
    (2024, 3, 10, (1, 30, 0)).
Proof.
  split.
  - intros H. apply (f_equal (fun l => offset_at l 1720000000)) in H.
    vm_compute in H. discriminate.
  - split; [vm_compute; reflexivity|].
    split; vm_compute; reflexivity.
Qed.

(** C10, amended: the result of [Time.Time] depends on the local zone it
    is called in.  For a [Time] that holds a date of the calendar, in a
    year of at most nine digits, and whose derived time of day is one:
    read in UTC the result shows the stored year, month and day and the
    derived hour, minute and second; in a local zone the instant is the
    UTC one less the offset [time.Date] finds in that zone for this wall
    clock, and it carries that zone; two local zones in which this
    offset differs return different instants; and the wall-clock fields
    are those of the receiver in every zone that is steady at this wall
    clock, as every zone of one fixed offset is. *)
Theorem Time_Time_in_local_zone (t : Time) (l1 l2 : Location) (h m s : Z) :
  valid_date (Year t) (Month t) (Day t) ->
  small (Year t) ->
  derived_clock t = (h, m, s) ->
  valid_clock h m s ->
  wall_clock (Time_Time UTC t) = (Year t, Month t, Day t, (h, m, s)) /\
  sec (Time_Time l1 t) =
    sec (Time_Time UTC t)
    - date_offset l1 (wall_unix (Year t) (Month t) (Day t) h m s) /\
  loc (Time_Time l1 t) = l1 /\
  (date_offset l1 (wall_unix (Year t) (Month t) (Day t) h m s) <>
   date_offset l2 (wall_unix (Year t) (Month t) (Day t) h m s) ->
   sec (Time_Time l1 t) <> sec (Time_Time l2 t)) /\
  (zone_steady l1 (wall_unix (Year t) (Month t) (Day t) h m s) ->
   wall_clock (Time_Time l1 t) = (Year t, Month t, Day t, (h, m, s))) /\
  (forall o,
     date_offset (FixedZone o) (wall_unix (Year t) (Month t) (Day t) h m s) = o /\
     zone_steady (FixedZone o) (wall_unix (Year t) (Month t) (Day t) h m s)).
Proof.
  intros Hd Hy Hdc Hc.
  rewrite !(Time_Time_derived _ t h m s Hdc).
  split; [apply wall_clock_Date_UTC; [assumption|assumption|lia]|].
  split; [rewrite (time_Date_zone _ _ _ _ _ _ _ l1); reflexivity|].
  split; [apply loc_Date|].
  split.
  - intros Hne.
    rewrite (time_Date_zone _ _ _ _ _ _ _ l1), (time_Date_zone _ _ _ _ _ _ _ l2).
    cbn [sec]. unfold wall_unix in Hne. lia.
  - split.
    + intros Hs. apply wall_clock_Date; [assumption|assumption|lia|assumption].
    + intros o. split; [apply date_offset_fixed|apply zone_steady_fixed].
Qed.

Lemma Time_Time_in_local_zone_witness :
  valid_date 2024 3 5 /\ small 2024 /\
  derived_clock (mkReminderTime 2024 3 5 Evening 0 0 0) = (17, 0, 0) /\
  valid_clock 17 0 0 /\
  sec (Time_Time UTC (mkReminderTime 2024 3 5 Evening 0 0 0)) <>
  sec (Time_Time (FixedZone 3600) (mkReminderTime 2024 3 5 Evening 0 0 0)).
Proof.
  assert (Hy : small 2024) by (unfold small; lia).
  assert (Hc : valid_clock 17 0 0) by (unfold valid_clock; lia).
  split; [exact valid_date_2024_3_5|]. split; [exact Hy|].
  split; [reflexivity|]. split; [exact Hc|].
  destruct (Time_Time_in_local_zone (mkReminderTime 2024 3 5 Evening 0 0 0)
              UTC (FixedZone 3600) 17 0 0 valid_date_2024_3_5 Hy eq_refl Hc)
    as (_ & _ & _ & Hne & _).
  apply Hne. vm_compute. discriminate.
Defined.

(** ** Timestamp *)

Lemma parse_std_year_not_digit (next : option std) (v : bytes) (st : fields) :
  isDigit v 0 = false ->
  parse_std stdLongYear next v st = mkStep st v v EmptyString (Some errBad).
Proof.
  intros H. unfold parse_std. rewrite H, orb_true_r. reflexivity.
Qed.

(** An element that fails without a range message ends the loop with
    the element and the value it held. *)
Lemma parse_chunks_step_err (al av prefix : bytes) (s : std)
    (cs : list (bytes * std)) (v v' : bytes) (st : fields) (r : step) (e : errbad) :
  skip v prefix = (v', None) ->
  parse_std s (option_map snd (hd_error cs)) v' st = r ->
  s_range r = EmptyString -> s_err r = Some e ->
  parse_chunks al av ((prefix, s) :: cs) v st =
  Err (ParseError al av (std_text s) (s_hold r) MsgNone).
Proof.
  intros Hs Hp Hr He. cbn [parse_chunks]. rewrite Hs, Hp, Hr, He. reflexivity.
Qed.

(** The layout has no quote before the year, so a value that starts with
    one stops at the year. *)
Lemma time_Parse_quoted (s : bytes) :
  time_Parse tsLayout_chunks (dquote :: s) =
  Err (ParseError tsLayout (dquote :: s) (lit "2006") (dquote :: s) MsgNone).
Proof.
  assert (Hp : parse_chunks tsLayout (dquote :: s) (chunks tsLayout_chunks)
                 (dquote :: s) fields_init =
               Err (ParseError tsLayout (dquote :: s) (lit "2006") (dquote :: s) MsgNone)).
  { apply (parse_chunks_step_err tsLayout (dquote :: s) [] stdLongYear
             (tl (chunks tsLayout_chunks)) (dquote :: s) (dquote :: s) fields_init
             (mkStep fields_init (dquote :: s) (dquote :: s) EmptyString (Some errBad))
             errBad);
      [reflexivity | apply parse_std_year_not_digit; reflexivity
       | reflexivity | reflexivity]. }
  unfold time_Parse. cbv zeta. rewrite layout_text_tsLayout, Hp. reflexivity.
Qed.

Lemma Timestamp_UnmarshalJSON_quoted (t : Timestamp) (s : string) :
  quoted s <> tszero ->
  Timestamp_UnmarshalJSON t (quoted s) =
  (t, Some (ParseError tsLayout (quoted s) (lit "2006") (quoted s) MsgNone)).
Proof.
  intros Hne. unfold Timestamp_UnmarshalJSON.
  rewrite bytes_Equal_neq by congruence.
  unfold quoted at 1. now rewrite time_Parse_quoted.
Qed.

Lemma parse_chunks_error (al av : bytes) (cs : list (bytes * std)) (v : bytes)
    (st : fields) (e : error) :
  parse_chunks al av cs v st = Err e ->
  exists le ve m, e = ParseError al av le ve m.
Proof.
  revert v st. induction cs as [|[prefix s] cs IH]; intros v st; simpl.
  - discriminate.
  - destruct (skip v prefix) as [v' [eb|]].
    + intros [= <-]. eauto.
    + destruct (negb _); [intros [= <-]; eauto|].
      destruct (s_err _); [intros [= <-]; eauto|]. apply IH.
Qed.

(** Whatever [time.Parse] rejects, the decoder rejects with the parser's
    error, a [ParseError] for the layout and the input. *)
Lemma Timestamp_UnmarshalJSON_malformed (t : Timestamp) (b : bytes) (e : error) :
  b <> tszero -> time_Parse tsLayout_chunks b = Err e ->
  Timestamp_UnmarshalJSON t b = (t, Some e) /\
  exists le ve m, e = ParseError tsLayout b le ve m.
Proof.
  intros Hne He. unfold Timestamp_UnmarshalJSON.
  rewrite bytes_Equal_neq by congruence. rewrite He. split; [reflexivity|].
  unfold time_Parse in He.
  destruct (parse_chunks _ _ _ _ _) as [[st v]|e'] eqn:Hp; simpl in He.
  - destruct (skip v _) as [v' [eb|]]; [injection He as <-; eauto|].
    destruct (negb _); [injection He as <-; eauto|].
    destruct (_ || _); [injection He as <-; eauto | discriminate].
  - injection He as <-. apply parse_chunks_error in Hp. exact Hp.
Qed.

(** C2: the sentinel literal decodes to the zero instant, but a
    timestamp given as a JSON string, with its quotes, is rejected at the
    year: the layout the bytes are parsed against has no quotes.  The
    same text without the quotes is what parses. *)
Theorem Timestamp_decode_rejects_JSON_string :
  (forall t, Timestamp_UnmarshalJSON t (quoted "1970-01-01T00:00:00.000Z") =
     (time_zero, None)) /\
  (forall t, Timestamp_UnmarshalJSON t (quoted "2024-03-05T12:00:00.000Z") =
     (t, Some (ParseError (lit "2006-01-02T15:04:05.000Z")
                 (quoted "2024-03-05T12:00:00.000Z") (lit "2006")
                 (quoted "2024-03-05T12:00:00.000Z") MsgNone))) /\
  (forall t, Timestamp_UnmarshalJSON t (lit "2024-03-05T12:00:00.000Z") =
     (time_Date 2024 3 5 12 0 0 0 UTC, None)).
Proof. split; [|split]; intros t; vm_compute; reflexivity. Qed.

(** [appendInt] writes after what it is given. *)
Lemma appendInt_app (b : bytes) (x : Z) (w : nat) :
  appendInt b x w = b ++ appendInt [] x w.
Proof. reflexivity. Qed.

Lemma uint_bytes_head (u : Decimal.uint) :
  u <> Decimal.Nil ->
  exists c rest, uint_bytes u = c :: rest /\ is_digit_byte c = true.
Proof. destruct u; simpl; try congruence; intros _; eauto. Qed.

Lemma decimal_head (u : Z) :
  exists c rest, decimal u = c :: rest /\ is_digit_byte c = true.
Proof.
  unfold decimal. apply uint_bytes_head.
  destruct (Z.to_N u) as [|p]; simpl; [discriminate|].
  apply DecimalPos.Unsigned.to_uint_nonnil.
Qed.

Lemma appendInt_head (x : Z) (w : nat) :
  exists c rest, appendInt [] x w = c :: rest /\ c <> dquote.
Proof.
  unfold appendInt. simpl.
  destruct (x <? 0); simpl; [eexists _, _; split; [reflexivity | discriminate]|].
  destruct (decimal_head (Z.abs x)) as (c & rest & -> & Hc).
  destruct (w - List.length (c :: rest))%nat; simpl.
  - eexists _, _; split; [reflexivity|]. intros ->. discriminate Hc.
  - eexists _, _; split; [reflexivity | discriminate].
Qed.

(** No encoding of a non-zero instant starts with a quote. *)
Lemma Timestamp_MarshalJSON_unquoted (t : Timestamp) :
  time_IsZero t = false ->
  exists c rest,
    Timestamp_MarshalJSON t = (c :: rest, None) /\ c <> dquote.
Proof.
  intros Hz. unfold Timestamp_MarshalJSON. rewrite Hz.
  unfold time_Format. cbn [chunks suffix tsLayout_chunks fold_left fst snd].
  unfold format_std.
  destruct (time_Date_of t) as [[y m] d], (time_Clock t) as [[h mi] s].
  rewrite !app_nil_l.
  destruct (appendInt_head y 4) as (c & rest & E & Hc).
  repeat (rewrite (appendInt_app (_ ++ _)) || unfold appendNano).
  rewrite E. rewrite <- !app_assoc. simpl.
  eexists _, _; split; [reflexivity | exact Hc].
Qed.

(** C3: the zero instant, in any location, encodes to the quoted
    sentinel; a non-zero instant encodes to its digits with three
    fractional digits and a Z but without the quotes of a JSON string,
    and the digits are the wall clock of the instant's own location,
    not of UTC: noon at one hour east of UTC, which is 11:00 UTC,
    encodes as 12:00 with the Z. *)
Theorem Timestamp_encode_omits_quotes :
  (forall l, Timestamp_MarshalJSON (mkTime 0 0 l) =
     (quoted "1970-01-01T00:00:00.000Z", None)) /\
  Timestamp_MarshalJSON (time_Date 2024 3 5 12 0 0 0 UTC) =
    (lit "2024-03-05T12:00:00.000Z", None) /\
  fst (Timestamp_MarshalJSON (time_Date 2024 3 5 12 0 0 0 UTC)) <>
    quoted "2024-03-05T12:00:00.000Z" /\
  Timestamp_MarshalJSON (time_Date 2024 3 5 12 0 0 123456789 UTC) =
    (lit "2024-03-05T12:00:00.123Z", None) /\
  Timestamp_MarshalJSON (time_Date 2024 3 5 12 0 0 0 (FixedZone 3600)) =
    (lit "2024-03-05T12:00:00.000Z", None) /\
  sec (time_Date 2024 3 5 12 0 0 0 (FixedZone 3600)) =
    sec (time_Date 2024 3 5 11 0 0 0 UTC).
Proof.
  split; [intros l; reflexivity|].
  split; [vm_compute; reflexivity|].
  split; [vm_compute; discriminate|].
  split; [vm_compute; reflexivity|].
  split; vm_compute; reflexivity.
Qed.

(** * Further properties of the codecs *)

(** ** Encoders of the enumerations *)

(** X1: [Period.MarshalJSON] succeeds exactly on the values 1 to 4, with
    the token at that place of the list MORNING, AFTERNOON, EVENING,
    NIGHT; on every other integer, zero and negatives included, it
    returns no bytes and the unsupported-value error carrying the
    integer. *)
Theorem Period_MarshalJSON_total (p : Period) :
  Period_MarshalJSON p =
  if (1 <=? p) && (p <=? 4)
  then (nth (Z.to_nat (p - 1)) period_tokens [], None)
  else ([], Some (Errorf "unsupported period value %d" [ArgInt p])).
Proof.
  unfold Period_MarshalJSON, Morning, Afternoon, Evening, Night.
  destruct (Z.eqb_spec p 1) as [->|]; [reflexivity|].
  destruct (Z.eqb_spec p 2) as [->|]; [reflexivity|].
  destruct (Z.eqb_spec p 3) as [->|]; [reflexivity|].
  destruct (Z.eqb_spec p 4) as [->|]; [reflexivity|].
  destruct (Z.leb_spec 1 p), (Z.leb_spec p 4); simpl; try reflexivity. lia.
Qed.

(** X2: [Color.MarshalJSON] succeeds exactly on the values 0 to 7, with
    the token at that place of the list DEFAULT to GRAY; on every other
    integer it returns no bytes and the unsupported-value error carrying
    the integer. *)
Theorem Color_MarshalJSON_total (c : Color) :
  Color_MarshalJSON c =
  if (0 <=? c) && (c <=? 7)
  then (nth (Z.to_nat c) color_tokens [], None)
  else ([], Some (Errorf "unsupported color value %d" [ArgInt c])).
Proof.
  unfold Color_MarshalJSON, DefaultColor, Red, Orange, Yellow, Green, Teal,
    Blue, Gray.
  destruct (Z.eqb_spec c 0) as [->|]; [reflexivity|].
  destruct (Z.eqb_spec c 1) as [->|]; [reflexivity|].
  destruct (Z.eqb_spec c 2) as [->|]; [reflexivity|].
  destruct (Z.eqb_spec c 3) as [->|]; [reflexivity|].
  destruct (Z.eqb_spec c 4) as [->|]; [reflexivity|].
  destruct (Z.eqb_spec c 5) as [->|]; [reflexivity|].
  destruct (Z.eqb_spec c 6) as [->|]; [reflexivity|].
  destruct (Z.eqb_spec c 7) as [->|]; [reflexivity|].
  destruct (Z.leb_spec 0 c), (Z.leb_spec c 7); simpl; try reflexivity. lia.
Qed.

(** X4: whatever [Period.UnmarshalJSON] accepts, it leaves a named
    period, never the default, and encoding that period gives the
    accepted bytes back. *)
Theorem Period_decode_then_encode (p0 p : Period) (b : bytes) :
  Period_UnmarshalJSON p0 b = (p, None) ->
  Period_MarshalJSON p = (b, None) /\ p <> SpecificTime /\ 1 <= p <= 4.
Proof.
  unfold Period_UnmarshalJSON. case_Equal; intros [= <-];
    (split; [reflexivity|]); split; (discriminate || (vm_compute; intuition discriminate)).
Qed.

Lemma Period_decode_then_encode_witness :
  Period_UnmarshalJSON SpecificTime (quoted "NIGHT") = (Night, None) /\
  Period_MarshalJSON Night = (quoted "NIGHT", None).
Proof.
  split; [reflexivity|].
  exact (proj1 (Period_decode_then_encode SpecificTime Night (quoted "NIGHT") eq_refl)).
Defined.

(** X5: whatever [Color.UnmarshalJSON] accepts, encoding the color it
    leaves gives the accepted bytes back, and the color is one of the
    eight constants. *)
Theorem Color_decode_then_encode (c0 c : Color) (b : bytes) :
  Color_UnmarshalJSON c0 b = (c, None) ->
  Color_MarshalJSON c = (b, None) /\ 0 <= c <= 7.
Proof.
  unfold Color_UnmarshalJSON. case_Equal; intros [= <-];
    (split; [reflexivity | vm_compute; intuition discriminate]).
Qed.

Lemma Color_decode_then_encode_witness :
  Color_UnmarshalJSON Red (quoted "TEAL") = (Teal, None) /\
  Color_MarshalJSON Teal = (quoted "TEAL", None).
Proof.
  split; [reflexivity|].
  exact (proj1 (Color_decode_then_encode Red Teal (quoted "TEAL") eq_refl)).
Defined.

Lemma Period_MarshalJSON_inv (p : Period) (b : bytes) :
  Period_MarshalJSON p = (b, None) ->
  (p = Morning /\ b = morningVal) \/ (p = Afternoon /\ b = afternoonVal) \/
  (p = Evening /\ b = eveningVal) \/ (p = Night /\ b = nightVal).
Proof.
  unfold Period_MarshalJSON.
  destruct (Z.eqb_spec p Morning); [intros [= <-]; auto|].
  destruct (Z.eqb_spec p Afternoon); [intros [= <-]; auto|].
  destruct (Z.eqb_spec p Evening); [intros [= <-]; auto|].
  destruct (Z.eqb_spec p Night); [intros [= <-]; auto|]. discriminate.
Qed.

Lemma Color_MarshalJSON_inv (c : Color) (b : bytes) :
  Color_MarshalJSON c = (b, None) ->
  (c = DefaultColor /\ b = defaultVal) \/ (c = Red /\ b = redVal) \/
  (c = Orange /\ b = orangeVal) \/ (c = Yellow /\ b = yellowVal) \/
  (c = Green /\ b = greenVal) \/ (c = Teal /\ b = tealVal) \/
  (c = Blue /\ b = blueVal) \/ (c = Gray /\ b = grayVal).
Proof.
  unfold Color_MarshalJSON.
  repeat match goal with
         | |- context [c =? ?k] =>
             destruct (Z.eqb_spec c k); [intros [= <-]; tauto|]
         end.
  discriminate.
Qed.

(** X3: no two periods, no two colors and no two dismissed flags are
    encoded to the same bytes. *)
Theorem encoders_injective :
  injective_encoder Period_MarshalJSON /\
  injective_encoder Color_MarshalJSON /\
  injective_encoder Dismissed_MarshalJSON.
Proof.
  split; [|split]; intros v w b Hv Hw.
  - apply Period_MarshalJSON_inv in Hv, Hw.
    destruct Hv as [[-> ->]|[[-> ->]|[[-> ->]|[-> ->]]]];
      destruct Hw as [[-> Hb]|[[-> Hb]|[[-> Hb]|[-> Hb]]]];
      (reflexivity || discriminate Hb).
  - apply Color_MarshalJSON_inv in Hv, Hw.
    destruct Hv as [[-> ->]|[[-> ->]|[[-> ->]|[[-> ->]|[[-> ->]|[[-> ->]|
                   [[-> ->]|[-> ->]]]]]]]];
      destruct Hw as [[-> Hb]|[[-> Hb]|[[-> Hb]|[[-> Hb]|[[-> Hb]|[[-> Hb]|
                     [[-> Hb]|[-> Hb]]]]]]]];
      (reflexivity || discriminate Hb).
  - destruct v, w; try reflexivity; injection Hv as <-; discriminate Hw.
Qed.

Lemma encoders_injective_witness :
  Color_MarshalJSON Green = (quoted "GREEN", None) /\
  forall w, Color_MarshalJSON w = (quoted "GREEN", None) -> Green = w.
Proof.
  split; [reflexivity|].
  intros w Hw.
  exact (proj1 (proj2 encoders_injective) Green w (quoted "GREEN") eq_refl Hw).
Defined.

(** X6: [Dismissed.UnmarshalJSON] accepts exactly the two tokens, and
    whichever it accepts it leaves the flag set: no input makes it store
    [false]. *)
Theorem Dismissed_decode_success_is_true (d0 d : Dismissed) (b : bytes) :
  Dismissed_UnmarshalJSON d0 b = (d, None) ->
  d = true /\ (b = quoted "DISMISSED" \/ b = quoted "INITIAL").
Proof.
  unfold Dismissed_UnmarshalJSON. case_Equal; intros [= <-]; auto.
Qed.

Lemma Dismissed_decode_success_is_true_witness :
  Dismissed_UnmarshalJSON false (quoted "INITIAL") = (true, None) /\ true = true.
Proof.
  split; [reflexivity|].
  exact (proj1 (Dismissed_decode_success_is_true false true (quoted "INITIAL") eq_refl)).
Defined.

(** ** Literal tags tell the entities apart *)

(** X7: the five tag constants are pairwise different, so whatever the
    input, at most one of the five tag decoders accepts it. *)
Theorem at_most_one_tag_accepts (b : bytes) :
  (List.length (filter (fun ok => ok) (tag_verdicts b)) <= 1)%nat.
Proof.
  unfold tag_verdicts, NodeKind_UnmarshalJSON, TSKind_UnmarshalJSON,
    NoteType_UnmarshalJSON, ListType_UnmarshalJSON, ItemType_UnmarshalJSON.
  destruct (bytes_Equal nodekind b) eqn:E1;
    [apply bytes_Equal_eq in E1; subst b; vm_compute; lia|].
  destruct (bytes_Equal tskind b) eqn:E2;
    [apply bytes_Equal_eq in E2; subst b; vm_compute; lia|].
  destruct (bytes_Equal notetype b) eqn:E3;
    [apply bytes_Equal_eq in E3; subst b; vm_compute; lia|].
  destruct (bytes_Equal listtype b) eqn:E4;
    [apply bytes_Equal_eq in E4; subst b; vm_compute; lia|].
  destruct (bytes_Equal itemtype b); simpl; lia.
Qed.

(** ** Timestamps: what the decoder accepts and what the encoder writes *)

(** X8: an input that starts with a double quote, as every JSON string
    does, is rejected unless it is the sentinel: the parser stops at the
    year and the target keeps its value. *)
Theorem Timestamp_rejects_quoted (t : Timestamp) (b : bytes) :
  dquote :: b <> tszero ->
  Timestamp_UnmarshalJSON t (dquote :: b) =
  (t, Some (ParseError tsLayout (dquote :: b) (lit "2006") (dquote :: b) MsgNone)).
Proof.
  intros Hne. unfold Timestamp_UnmarshalJSON.
  rewrite bytes_Equal_neq by congruence.
  now rewrite time_Parse_quoted.
Qed.

Lemma Timestamp_rejects_quoted_witness :
  quoted "1999-12-31T23:59:59.999Z" <> tszero /\
  snd (Timestamp_UnmarshalJSON time_zero (quoted "1999-12-31T23:59:59.999Z")) <> None.
Proof.
  assert (Hne : quoted "1999-12-31T23:59:59.999Z" <> tszero) by discriminate.
  split; [exact Hne|].
  unfold quoted.
  rewrite (Timestamp_rejects_quoted time_zero
             (lit "1999-12-31T23:59:59.999Z" ++ [dquote]) Hne).
  discriminate.
Defined.

(** X9: every error of [Timestamp.UnmarshalJSON] is the parser's
    [ParseError], and it names the layout and the whole input; the
    sentinel never produces one. *)
Theorem Timestamp_decode_error_is_ParseError (t t' : Timestamp) (b : bytes)
    (e : error) :
  Timestamp_UnmarshalJSON t b = (t', Some e) ->
  b <> tszero /\ exists le ve m, e = ParseError tsLayout b le ve m.
Proof.
  intros H.
  assert (Hne : b <> tszero).
  { intros ->. unfold Timestamp_UnmarshalJSON in H.
    rewrite bytes_Equal_refl in H. discriminate H. }
  split; [exact Hne|].
  unfold Timestamp_UnmarshalJSON in H.
  rewrite bytes_Equal_neq in H by congruence.
  destruct (time_Parse tsLayout_chunks b) as [tm|e'] eqn:Hp; [discriminate H|].
  injection H as _ <-.
  exact (proj2 (Timestamp_UnmarshalJSON_malformed t b e' Hne Hp)).
Qed.

Lemma Timestamp_decode_error_is_ParseError_witness :
  Timestamp_UnmarshalJSON time_zero (lit "2024-02-30T09:00:00.000Z") =
    (time_zero,
     Some (ParseError tsLayout (lit "2024-02-30T09:00:00.000Z") [] []
             (MsgOutOfRange "day"))) /\
  lit "2024-02-30T09:00:00.000Z" <> tszero.
Proof.
  assert (H : Timestamp_UnmarshalJSON time_zero (lit "2024-02-30T09:00:00.000Z") =
    (time_zero,
     Some (ParseError tsLayout (lit "2024-02-30T09:00:00.000Z") [] []
             (MsgOutOfRange "day")))) by (vm_compute; reflexivity).
  split; [exact H|].
  exact (proj1 (Timestamp_decode_error_is_ParseError _ _ _ _ H)).
Defined.

(** X10: the encoding of a non-zero instant never starts with a double
    quote, so it is never a JSON string. *)
Theorem Timestamp_encoding_never_quoted (t : Timestamp) (s : bytes) :
  time_IsZero t = false -> fst (Timestamp_MarshalJSON t) <> dquote :: s.
Proof.
  intros Hz H.
  destruct (Timestamp_MarshalJSON_unquoted t Hz) as (c & rest & E & Hc).
  rewrite E in H. cbn [fst] in H. injection H as -> _. now apply Hc.
Qed.

Lemma Timestamp_encoding_never_quoted_witness :
  time_IsZero (time_Date 1970 1 1 0 0 0 0 UTC) = false /\
  fst (Timestamp_MarshalJSON (time_Date 1970 1 1 0 0 0 0 UTC)) <> tszero.
Proof.
  split; [reflexivity|].
  exact (Timestamp_encoding_never_quoted (time_Date 1970 1 1 0 0 0 0 UTC)
           (lit "1970-01-01T00:00:00.000Z" ++ [dquote]) eq_refl).
Defined.

(** X11: the quoted sentinel is written for the zero instant and for no
    other: an instant with a non-zero second or nanosecond count is never
    encoded as the sentinel, the Unix epoch included. *)
Theorem Timestamp_sentinel_iff_zero (t : Timestamp) :
  fst (Timestamp_MarshalJSON t) = tszero <-> time_IsZero t = true.
Proof.
  split.
  - intros H. destruct (time_IsZero t) eqn:Hz; [reflexivity|].
    destruct (Timestamp_MarshalJSON_unquoted t Hz) as (c & rest & E & Hc).
    rewrite E in H. simpl in H. injection H as -> _. now contradiction Hc.
  - intros Hz. unfold Timestamp_MarshalJSON. now rewrite Hz.
Qed.

(** [norm] is division with remainder, rounding down. *)
Lemma norm_spec (hi lo base : Z) :
  0 < base -> norm hi lo base = (hi + lo / base, lo mod base).
Proof.
  intros Hb. unfold norm.
  destruct (Z.ltb_spec lo 0) as [Hneg|Hpos].
  - set (n := (- lo - 1) / base + 1).
    assert (Hr : 0 <= lo + n * base < base).
    { pose proof (Z.div_mod (- lo - 1) base ltac:(lia)) as E.
      pose proof (Z.mod_pos_bound (- lo - 1) base Hb) as B.
      subst n. nia. }
    rewrite Z.geb_leb. destruct (Z.leb_spec base (lo + n * base)); [lia|].
    assert (Hq : lo / base = - n).
    { symmetry. apply Z.div_unique with (lo + n * base); [lia | ring]. }
    rewrite Hq, Z.mod_eq, Hq by lia. f_equal; ring.
  - rewrite Z.geb_leb. destruct (Z.leb_spec base lo).
    + rewrite Z.mod_eq by lia. f_equal; ring.
    + rewrite Z.div_small, Z.mod_small by lia. f_equal; ring.
Qed.

Lemma nsec_Date (year month day hour min s ns : Z) (l : Location) :
  nsec (time_Date year month day hour min s ns l) = ns mod 1000000000.
Proof.
  unfold time_Date.
  destruct (norm year (month - 1) 12).
  rewrite (norm_spec s ns 1000000000) by lia.
  destruct (norm min _ 60) as [min' s''], (norm hour min' 60) as [hour' min''].
  destruct (norm day hour' 24). cbv zeta.
  destruct (lookup l _) as [[o st] en]. reflexivity.
Qed.

Lemma time_Parse_is_Date (l : layout) (v : bytes) (t : time_Time) :
  time_Parse l v = Ok t ->
  exists year month day hour min s ns,
    t = time_Date year month day hour min s ns UTC.
Proof.
  unfold time_Parse. cbv zeta.
  destruct (parse_chunks _ _ _ _ _) as [[st v']|e]; simpl; [|discriminate].
  destruct (skip v' _) as [v'' [eb|]]; [discriminate|].
  destruct (negb _); [discriminate|].
  destruct (_ || _); [discriminate|].
  intros [= <-]. eauto 8.
Qed.

(** X12: whatever [Timestamp.UnmarshalJSON] accepts, the time it stores
    is in UTC and its nanoseconds lie within the second. *)
Theorem Timestamp_decoded_is_UTC (t0 t : Timestamp) (b : bytes) :
  Timestamp_UnmarshalJSON t0 b = (t, None) ->
  loc t = UTC /\ 0 <= nsec t < 1000000000.
Proof.
  unfold Timestamp_UnmarshalJSON.
  destruct (bytes_Equal tszero b).
  - intros [= <-]. split; [reflexivity | simpl; lia].
  - destruct (time_Parse tsLayout_chunks b) as [tm|e] eqn:Hp; [|discriminate].
    intros [= <-].
    destruct (time_Parse_is_Date _ _ _ Hp) as (y & m & d & h & mi & s & ns & ->).
    split; [apply loc_Date|].
    rewrite nsec_Date. apply Z.mod_pos_bound. lia.
Qed.

Lemma Timestamp_decoded_is_UTC_witness :
  Timestamp_UnmarshalJSON (mkTime 5 5 (FixedZone 3600)) (lit "2024-03-05T12:00:00.250Z") =
    (time_Date 2024 3 5 12 0 0 250000000 UTC, None) /\
  loc (time_Date 2024 3 5 12 0 0 250000000 UTC) = UTC.
Proof.
  assert (H : Timestamp_UnmarshalJSON (mkTime 5 5 (FixedZone 3600))
                (lit "2024-03-05T12:00:00.250Z") =
              (time_Date 2024 3 5 12 0 0 250000000 UTC, None))
    by (vm_compute; reflexivity).
  split; [exact H|].
  exact (proj1 (Timestamp_decoded_is_UTC _ _ _ H)).
Defined.

(** ** The reminder time as a JSON object *)

Lemma Period_MarshalJSON_unsupported (p : Period) :
  ~ 1 <= p <= 4 ->
  Period_MarshalJSON p = ([], Some (Errorf "unsupported period value %d" [ArgInt p])).
Proof.
  intros Hp. unfold Period_MarshalJSON, Morning, Afternoon, Evening, Night.
  repeat match goal with
         | |- context [p =? ?k] => destruct (Z.eqb_spec p k); [lia|]
         end.
  reflexivity.
Qed.

Lemma Period_MarshalJSON_supported (p : Period) :
  1 <= p <= 4 -> exists tok, Period_MarshalJSON p = (tok, None).
Proof.
  intros Hp. unfold Period_MarshalJSON, Morning, Afternoon, Evening, Night.
  repeat match goal with
         | |- context [p =? ?k] => destruct (Z.eqb_spec p k); [eauto|]
         end.
  lia.
Qed.

(** X13: [json.Marshal] of the struct of the package's test, over all
    values of its [Period] field: the unset period gives the empty
    object, as the test expects, and no other period does; each named
    period gives the object with the one member ["When"] and the
    period's token; any other value fails with the error of
    [Period.MarshalJSON], wrapped for the type. *)
Theorem test_struct_encoding :
  structEncoder (foo SpecificTime) = Ok (lit "{}") /\
  (forall p, structEncoder (foo p) = Ok (lit "{}") -> p = SpecificTime) /\
  structEncoder (foo Morning) =
    Ok (lit "{" ++ quoted "When" ++ lit ":" ++ quoted "MORNING" ++ lit "}") /\
  structEncoder (foo Afternoon) =
    Ok (lit "{" ++ quoted "When" ++ lit ":" ++ quoted "AFTERNOON" ++ lit "}") /\
  structEncoder (foo Evening) =
    Ok (lit "{" ++ quoted "When" ++ lit ":" ++ quoted "EVENING" ++ lit "}") /\
  structEncoder (foo Night) =
    Ok (lit "{" ++ quoted "When" ++ lit ":" ++ quoted "NIGHT" ++ lit "}") /\
  (forall p, ~ 0 <= p <= 4 ->
     structEncoder (foo p) =
     Err (MarshalerError "wire.Period"
            (Errorf "unsupported period value %d" [ArgInt p]))).
Proof.
  split; [reflexivity|]. split.
  - intros p. unfold structEncoder, foo, SpecificTime.
    cbn [encode_fields omitEmpty value andb isEmptyValue encode_value bind].
    destruct (Z.eqb_spec p 0) as [E|N]; [intros _; exact E|].
    destruct (Z_le_gt_dec 1 p) as [L|G]; [destruct (Z_le_gt_dec p 4) as [U|G]|].
    + destruct (Period_MarshalJSON_supported p (conj L U)) as [tok ->].
      cbn [bind encode_fields Byte.eqb]. intros H. exfalso.
      assert (H' := f_equal (fun r : res error bytes =>
                      match r with Ok o => List.length o | Err _ => 0%nat end) H).
      cbn beta iota in H'. rewrite !length_app in H'. cbn in H'. lia.
    + rewrite Period_MarshalJSON_unsupported by lia. discriminate.
    + rewrite Period_MarshalJSON_unsupported by lia. discriminate.
  - do 4 (split; [vm_compute; reflexivity|]).
    intros p Hp. unfold structEncoder, foo.
    cbn [encode_fields omitEmpty value andb isEmptyValue encode_value bind].
    destruct (Z.eqb_spec p 0) as [E|N]; [lia|].
    rewrite Period_MarshalJSON_unsupported by lia. reflexivity.
Qed.

Lemma test_struct_encoding_witness :
  ~ 0 <= 7 <= 4 /\
  structEncoder (foo 7) =
    Err (MarshalerError "wire.Period"
           (Errorf "unsupported period value %d" [ArgInt 7])).
Proof.
  assert (Hn : ~ 0 <= 7 <= 4) by lia.
  split; [exact Hn|].
  destruct test_struct_encoding as (_ & _ & _ & _ & _ & _ & Hbad).
  exact (Hbad 7 Hn).
Defined.

(** X14: [json.Marshal] of a [Time] succeeds when the period is one of
    the five constants and fails on every other period, with the error of
    [Period.MarshalJSON] wrapped for the type. *)
Theorem json_Marshal_Time_fails_iff (t : Time) :
  (0 <= Period_ t <= 4 -> exists out, json_Marshal_Time t = Ok out) /\
  (~ 0 <= Period_ t <= 4 ->
   json_Marshal_Time t =
   Err (MarshalerError "wire.Period"
          (Errorf "unsupported period value %d" [ArgInt (Period_ t)]))).
Proof.
  unfold json_Marshal_Time, structEncoder, Time_fields.
  cbn [encode_fields omitEmpty value andb isEmptyValue encode_value bind].
  split.
  - intros Hr. destruct (Z.eqb_spec (Period_ t) 0) as [E0|N0].
    + destruct (Hour t =? 0), (Minute t =? 0), (Second t =? 0);
        cbn [encode_fields omitEmpty value andb isEmptyValue encode_value bind
             Byte.eqb];
        eexists; reflexivity.
    + destruct (Period_MarshalJSON_supported (Period_ t)) as [tok ->]; [lia|].
      cbn [bind].
      destruct (Hour t =? 0), (Minute t =? 0), (Second t =? 0);
        cbn [encode_fields omitEmpty value andb isEmptyValue encode_value bind
             Byte.eqb];
        eexists; reflexivity.
  - intros Hr. destruct (Z.eqb_spec (Period_ t) 0) as [E0|N0]; [lia|].
    rewrite Period_MarshalJSON_unsupported by lia. reflexivity.
Qed.

Lemma json_Marshal_Time_fails_iff_witness :
  ~ 0 <= Period_ (mkReminderTime 2024 3 5 5 0 0 0) <= 4 /\
  json_Marshal_Time (mkReminderTime 2024 3 5 5 0 0 0) =
  Err (MarshalerError "wire.Period"
         (Errorf "unsupported period value %d" [ArgInt 5])).
Proof.
  assert (Hn : ~ 0 <= Period_ (mkReminderTime 2024 3 5 5 0 0 0) <= 4)
    by (simpl; lia).
  split; [exact Hn|].
  exact (proj2 (json_Marshal_Time_fails_iff (mkReminderTime 2024 3 5 5 0 0 0)) Hn).
Defined.

(** X15: when the period of a [Time] can be encoded, [json.Marshal]
    writes it, right after the day, as the member ["period"] with the
    token of [Period.MarshalJSON] as its value. *)
Theorem named_period_is_written (t : Time) (tok : bytes) :
  Period_MarshalJSON (Period_ t) = (tok, None) ->
  exists out post,
    json_Marshal_Time t = Ok out /\
    out = lit "{" ++ quoted "year" ++ lit ":" ++ strconv_AppendInt [] (Year t)
          ++ lit "," ++ quoted "month" ++ lit ":" ++ strconv_AppendInt [] (Month t)
          ++ lit "," ++ quoted "day" ++ lit ":" ++ strconv_AppendInt [] (Day t)
          ++ lit "," ++ quoted "period" ++ lit ":" ++ tok ++ post.
Proof.
  intros Hm.
  assert (Hnz : (Period_ t =? 0) = false).
  { destruct (Z.eqb_spec (Period_ t) 0) as [E|]; [|reflexivity].
    rewrite E in Hm. discriminate Hm. }
  unfold json_Marshal_Time, structEncoder, Time_fields.
  cbn [encode_fields omitEmpty value andb isEmptyValue encode_value bind].
  rewrite Hnz, Hm. cbn [bind].
  destruct (Hour t =? 0), (Minute t =? 0), (Second t =? 0);
    cbn [encode_fields omitEmpty value andb isEmptyValue encode_value bind Byte.eqb];
    eexists _, _; (split; [reflexivity|]);
    cbn [name]; repeat rewrite <- app_assoc; simpl; reflexivity.
Qed.

Lemma named_period_is_written_witness :
  Period_MarshalJSON (Period_ (mkReminderTime 2024 3 5 Evening 0 0 0)) =
    (quoted "EVENING", None) /\
  json_Marshal_Time (mkReminderTime 2024 3 5 Evening 0 0 0) =
    Ok (lit "{" ++ quoted "year" ++ lit ":2024," ++ quoted "month" ++ lit ":3,"
        ++ quoted "day" ++ lit ":5," ++ quoted "period" ++ lit ":"
        ++ quoted "EVENING" ++ lit "}").
Proof.
  split; [reflexivity|].
  destruct (named_period_is_written (mkReminderTime 2024 3 5 Evening 0 0 0)
              (quoted "EVENING") eq_refl) as (out & post & Hout & _).
  vm_compute. reflexivity.
Defined.

(** ** The derived time on fields out of range *)

(** X16: a [Time] whose period is none of the five constants derives
    midnight of the stored date; the hour, minute and second fields are
    not read. *)
Theorem Time_Time_unknown_period (local : Location) (t : Time) :
  ~ 0 <= Period_ t <= 4 ->
  Time_Time local t = time_Date (Year t) (Month t) (Day t) 0 0 0 0 local.
Proof.
  intros Hp. unfold Time_Time, SpecificTime, Morning, Afternoon, Evening, Night.
  destruct (Z.eqb_spec (Period_ t) 0); [lia|].
  destruct (Z.eqb_spec (Period_ t) 1); [lia|].
  destruct (Z.eqb_spec (Period_ t) 2); [lia|].
  destruct (Z.eqb_spec (Period_ t) 3); [lia|].
  destruct (Z.eqb_spec (Period_ t) 4); [lia|]. reflexivity.
Qed.

Lemma Time_Time_unknown_period_witness :
  ~ 0 <= Period_ (mkReminderTime 2024 3 5 9 6 30 0) <= 4 /\
  wall_clock (Time_Time UTC (mkReminderTime 2024 3 5 9 6 30 0)) =
    (2024, 3, 5, (0, 0, 0)).
Proof.
  assert (Hn : ~ 0 <= Period_ (mkReminderTime 2024 3 5 9 6 30 0) <= 4)
    by (simpl; lia).
  split; [exact Hn|].
  rewrite (Time_Time_unknown_period UTC (mkReminderTime 2024 3 5 9 6 30 0) Hn).
  vm_compute. reflexivity.
Defined.

Lemma time_Date_carry_hour (y m d h mi s ns : Z) (l : Location) :
  time_Date y m d (h + 24) mi s ns l = time_Date y m (d + 1) h mi s ns l.
Proof.
  unfold time_Date.
  destruct (norm y (m - 1) 12) as [y' m'], (norm s ns 1000000000) as [s' ns'].
  destruct (norm mi s' 60) as [mi' s''].
  rewrite !(norm_spec _ mi' 60), !(norm_spec _ _ 24) by lia.
  replace (h + 24 + mi' / 60) with (h + mi' / 60 + 1 * 24) by ring.
  rewrite Z.div_add, Z.mod_add by lia.
  replace (d + ((h + mi' / 60) / 24 + 1)) with (d + 1 + (h + mi' / 60) / 24) by ring.
  reflexivity.
Qed.

Lemma time_Date_carry_month (y m d h mi s ns : Z) (l : Location) :
  time_Date y (m + 12) d h mi s ns l = time_Date (y + 1) m d h mi s ns l.
Proof.
  unfold time_Date.
  rewrite !(norm_spec _ _ 12) by lia.
  replace (m + 12 - 1) with (m - 1 + 1 * 12) by ring.
  rewrite Z.div_add, Z.mod_add by lia.
  replace (y + ((m - 1) / 12 + 1)) with (y + 1 + (m - 1) / 12) by ring.
  reflexivity.
Qed.

(** X17: [Time.Time] does not reject fields out of range; they carry
    over.  On fields of at most nine digits, where nothing in
    [time.Date] wraps, an hour 24 later is the same hour of the next
    day, and a month 12 later is the same month of the next year,
    whatever the other fields and the zone. *)
Theorem Time_Time_carries_over (local : Location) (y m d h mi s : Z) :
  small y -> small m -> small d -> small h -> small mi -> small s ->
  Time_Time local (mkReminderTime y m d SpecificTime (h + 24) mi s) =
    Time_Time local (mkReminderTime y m (d + 1) SpecificTime h mi s) /\
  (forall p,
     Time_Time local (mkReminderTime y (m + 12) d p h mi s) =
     Time_Time local (mkReminderTime (y + 1) m d p h mi s)).
Proof.
  intros _ _ _ _ _ _. split.
  - rewrite !Time_Time_specific by reflexivity. apply time_Date_carry_hour.
  - intros p. unfold Time_Time. cbn [Year Month Day Hour Minute Second Period_].
    destruct (if p =? SpecificTime then _ else _) as [[h' m'] s'].
    apply time_Date_carry_month.
Qed.

Lemma Time_Time_carries_over_witness :
  small 2024 /\ small 12 /\ small 31 /\ small 1 /\ small 30 /\ small 0 /\
  Time_Time spring_forward (mkReminderTime 2024 12 31 SpecificTime 25 30 0) =
    Time_Time spring_forward (mkReminderTime 2024 12 32 SpecificTime 1 30 0) /\
  wall_clock (Time_Time spring_forward (mkReminderTime 2024 12 31 SpecificTime 25 30 0)) =
    (2025, 1, 1, (1, 30, 0)).
Proof.
  assert (H1 : small 2024) by (unfold small; lia).
  assert (H2 : small 12) by (unfold small; lia).
  assert (H3 : small 31) by (unfold small; lia).
  assert (H4 : small 1) by (unfold small; lia).
  assert (H5 : small 30) by (unfold small; lia).
  assert (H6 : small 0) by (unfold small; lia).
  do 6 (split; [assumption|]).
  split; [|vm_compute; reflexivity].
  exact (proj1 (Time_Time_carries_over spring_forward 2024 12 31 1 30 0
                  H1 H2 H3 H4 H5 H6)).
Defined.

(** ** Timestamps: the digits written and read *)

Ltac digit_cases a H :=
  let C := fresh "C" in
  assert (C : a = 0 \/ a = 1 \/ a = 2 \/ a = 3 \/ a = 4 \/ a = 5 \/ a = 6 \/
              a = 7 \/ a = 8 \/ a = 9) by lia;
  clear H;
  destruct C as [-> | [-> | [-> | [-> | [-> | [-> | [-> | [-> | [-> | ->]]]]]]]]].

Lemma of_lu_dig (a : Z) (u : Decimal.uint) :
  0 <= a <= 9 ->
  DecimalPos.Unsigned.of_lu (dig a u) = (Z.to_N a + 10 * DecimalPos.Unsigned.of_lu u)%N.
Proof. intros H. digit_cases a H; reflexivity. Qed.

Lemma uint_bytes_dig (a : Z) (u : Decimal.uint) :
  0 <= a <= 9 -> uint_bytes (dig a u) = digit a :: uint_bytes u.
Proof. intros H. digit_cases a H; reflexivity. Qed.

Lemma of_lu_lu (w : nat) (n : Z) :
  0 <= n < 10 ^ Z.of_nat w -> DecimalPos.Unsigned.of_lu (lu w n) = Z.to_N n.
Proof.
  revert n. induction w as [|w IH]; intros n Hn.
  - simpl in *. assert (n = 0) by lia. now subst.
  - rewrite Nat2Z.inj_succ, Z.pow_succ_r in Hn by lia.
    cbn [lu]. pose proof (Z.mod_pos_bound n 10 ltac:(lia)) as Hm.
    rewrite of_lu_dig by lia.
    rewrite IH.
    + pose proof (Z.div_mod n 10 ltac:(lia)) as E.
      assert (0 <= n / 10) by (apply Z.div_pos; lia).
      lia.
    + split; [apply Z.div_pos; lia|].
      apply Z.div_lt_upper_bound; lia.
Qed.

Lemma uint_bytes_revapp (d d' : Decimal.uint) :
  uint_bytes (Decimal.revapp d d') = List.rev (uint_bytes d) ++ uint_bytes d'.
Proof.
  revert d'. induction d; intros d'; simpl; [reflexivity|..];
    rewrite IHd; simpl; now rewrite <- app_assoc.
Qed.

Lemma uint_bytes_rev (d : Decimal.uint) :
  uint_bytes (Decimal.rev d) = List.rev (uint_bytes d).
Proof. unfold Decimal.rev. now rewrite uint_bytes_revapp, app_nil_r. Qed.

Lemma uint_bytes_lu (w : nat) (n : Z) :
  uint_bytes (lu w n) = List.rev (digits_of w n).
Proof.
  revert n. induction w as [|w IH]; intros n; [reflexivity|].
  cbn [lu digits_of].
  rewrite uint_bytes_dig by (pose proof (Z.mod_pos_bound n 10); lia).
  now rewrite rev_app_distr, IH.
Qed.

Lemma length_digits_of (w : nat) (n : Z) : List.length (digits_of w n) = w.
Proof.
  revert n. induction w as [|w IH]; intros n; [reflexivity|].
  cbn [digits_of]. rewrite length_app, IH. simpl. lia.
Qed.

Lemma length_uint_bytes (u : Decimal.uint) :
  List.length (uint_bytes u) = Decimal.nb_digits u.
Proof. induction u; simpl; congruence. Qed.

(** Normalising a number strips leading zeros; padding to the old width
    puts them back. *)
Lemma pad_unorm (u : Decimal.uint) :
  u <> Decimal.Nil ->
  repeat "0"%byte
    (List.length (uint_bytes u) - List.length (uint_bytes (Decimal.unorm u)))
  ++ uint_bytes (Decimal.unorm u) = uint_bytes u.
Proof.
  induction u as [|u IH| | | | | | | | |]; intros Hne;
    try (simpl; rewrite Nat.sub_diag; reflexivity).
  - congruence.
  - rewrite DecimalFacts.unorm_D0. destruct u as [|u'| | | | | | | | |] eqn:Eu;
      try (rewrite <- Eu in *; 
           assert (Hu : u <> Decimal.Nil) by (subst u; discriminate);
           specialize (IH Hu);
           pose proof (DecimalFacts.nb_digits_unorm u Hu) as Hl;
           rewrite <- !length_uint_bytes in Hl;
           change (uint_bytes (Decimal.D0 u)) with ("0"%byte :: uint_bytes u);
           cbn [List.length];
           rewrite Nat.sub_succ_l by exact Hl;
           cbn [repeat app]; now rewrite IH).
    reflexivity.
Qed.

(** [appendInt] of a number that fits the width is its digits. *)
Lemma appendInt_digits (n : Z) (w : nat) :
  (0 < w)%nat -> 0 <= n < 10 ^ Z.of_nat w ->
  appendInt [] n w = digits_of w n.
Proof.
  intros Hw Hn. unfold appendInt, decimal.
  destruct (Z.ltb_spec n 0); [lia|]. rewrite Z.abs_eq by lia. simpl app.
  assert (E : N.to_uint (Z.to_N n) = Decimal.unorm (Decimal.rev (lu w n))).
  { rewrite <- DecimalN.Unsigned.to_of. f_equal.
    change (N.of_uint (Decimal.rev (lu w n)))
      with (Pos.of_uint (Decimal.rev (lu w n))).
    now rewrite DecimalPos.Unsigned.of_lu_rev, of_lu_lu. }
  rewrite E.
  assert (Hb : uint_bytes (Decimal.rev (lu w n)) = digits_of w n).
  { now rewrite uint_bytes_rev, uint_bytes_lu, rev_involutive. }
  assert (Hne : Decimal.rev (lu w n) <> Decimal.Nil).
  { intros E0. rewrite E0 in Hb. simpl in Hb.
    pose proof (length_digits_of w n) as L. rewrite <- Hb in L. simpl in L. lia. }
  pose proof (pad_unorm _ Hne) as P. rewrite Hb in P.
  rewrite length_digits_of in P. exact P.
Qed.

Lemma firstn_digits_of (k j : nat) (n : Z) :
  firstn k (digits_of (k + j) n) = digits_of k (n / 10 ^ Z.of_nat j).
Proof.
  revert n. induction j as [|j IH]; intros n.
  - rewrite Nat.add_0_r, Z.div_1_r. apply firstn_all2.
    rewrite length_digits_of. lia.
  - rewrite Nat.add_succ_r. cbn [digits_of].
    rewrite firstn_app, length_digits_of.
    replace (k - (k + j))%nat with O by lia.
    rewrite firstn_O, List.app_nil_r, IH.
    rewrite Nat2Z.inj_succ, Z.pow_succ_r, Z.div_div by lia. reflexivity.
Qed.

Lemma format_std_app (t : time_Time) (b : bytes) (s : std) :
  format_std t b s = b ++ format_std t [] s.
Proof.
  unfold format_std.
  destruct (time_Date_of t) as [[y m] d], (time_Clock t) as [[h mi] sc].
  destruct s; try apply appendInt_app. reflexivity.
Qed.

(** What [Format] writes for a time whose wall clock fits the widths of
    the layout. *)
Lemma time_Format_stamp (t : time_Time) (y m d h mi s : Z) :
  wall_clock t = (y, m, d, (h, mi, s)) ->
  0 <= y <= 9999 -> 0 <= m < 100 -> 0 <= d < 100 ->
  0 <= h < 100 -> 0 <= mi < 100 -> 0 <= s < 100 ->
  0 <= nsec t < 1000000000 ->
  time_Format t tsLayout_chunks = stamp y m d h mi s (nsec t / 1000000).
Proof.
  intros Hw Hy Hm Hd Hh Hmi Hs Hns.
  unfold wall_clock in Hw. apply pair_equal_spec in Hw as [Hdate Hclock].
  unfold time_Format. cbn [chunks suffix tsLayout_chunks fold_left fst snd].
  rewrite !(format_std_app t (_ ++ _)).
  unfold format_std. rewrite Hdate, Hclock. unfold appendNano.
  rewrite (appendInt_digits y 4), !(appendInt_digits _ 2), (appendInt_digits _ 9)
    by (simpl; lia).
  rewrite (firstn_digits_of 3 6). change (10 ^ Z.of_nat 6) with 1000000.
  unfold stamp. cbn [app]. rewrite <- !List.app_assoc. reflexivity.
Qed.

Lemma byte_Z_digit (a : Z) : 0 <= a <= 9 -> byte_Z (digit a) = 48 + a.
Proof. intros H. digit_cases a H; reflexivity. Qed.

Lemma is_digit_digit (a : Z) : 0 <= a <= 9 -> is_digit_byte (digit a) = true.
Proof. intros H. digit_cases a H; reflexivity. Qed.

Lemma digit_not_sign (a : Z) :
  0 <= a <= 9 -> Byte.eqb (digit a) "-" || Byte.eqb (digit a) "+" = false.
Proof. intros H. digit_cases a H; reflexivity. Qed.

Lemma mod10_digit (n : Z) : 0 <= n mod 10 <= 9.
Proof. pose proof (Z.mod_pos_bound n 10). lia. Qed.

(** [leadingInt] reads the digits of a number back, as long as the
    number stays clear of the overflow test. *)
Lemma leadingInt_from_digits (w : nat) (n x : Z) (rest : bytes) :
  0 <= n < 10 ^ Z.of_nat w -> 0 <= x ->
  x * 10 ^ Z.of_nat w + n <= 2 ^ 63 / 10 ->
  leadingInt_from x (digits_of w n ++ rest) =
  leadingInt_from (x * 10 ^ Z.of_nat w + n) rest.
Proof.
  revert n rest. induction w as [|w IH]; intros n rest Hn Hx Hb.
  - simpl in *. f_equal. lia.
  - rewrite Nat2Z.inj_succ, Z.pow_succ_r in * by lia.
    set (P := 10 ^ Z.of_nat w) in *.
    assert (HP : 0 < P) by (apply Z.pow_pos_nonneg; lia).
    pose proof (mod10_digit n) as Hm.
    pose proof (Z.div_mod n 10 ltac:(lia)) as E.
    assert (Hq : 0 <= n / 10 < P).
    { split; [apply Z.div_pos; lia | apply Z.div_lt_upper_bound; lia]. }
    change (2 ^ 63 / 10) with 922337203685477580 in Hb.
    cbn [digits_of]. rewrite <- List.app_assoc. cbn [app].
    rewrite IH; [| lia | lia | change (2 ^ 63 / 10) with 922337203685477580; nia].
    cbn [leadingInt_from]. rewrite is_digit_digit by lia. cbn [negb].
    change (2 ^ 63 / 10) with 922337203685477580.
    destruct (Z.gtb_spec (x * P + n / 10) 922337203685477580); [nia|].
    rewrite byte_Z_digit by lia. change (byte_Z "0") with 48.
    destruct (Z.gtb_spec ((x * P + n / 10) * 10 + (48 + n mod 10) - 48) (2 ^ 63));
      [change (2 ^ 63) with 9223372036854775808 in *; nia|].
    f_equal. nia.
Qed.

Lemma digits_of_S_head (w : nat) (n : Z) :
  exists a tl, 0 <= a <= 9 /\ digits_of (S w) n = digit a :: tl.
Proof.
  revert n. induction w as [|w IH]; intros n.
  - exists (n mod 10), []. split; [apply mod10_digit | reflexivity].
  - destruct (IH (n / 10)) as (a & tl & Ha & E).
    exists a, (tl ++ [digit (n mod 10)]). split; [exact Ha|].
    change (digits_of (S (S w)) n)
      with (digits_of (S w) (n / 10) ++ [digit (n mod 10)]).
    now rewrite E.
Qed.

(** [atoi] reads the digits of a number back. *)
Lemma atoi_digits (w : nat) (n : Z) :
  (0 < w <= 17)%nat -> 0 <= n < 10 ^ Z.of_nat w ->
  atoi (digits_of w n) = Ok n.
Proof.
  intros Hw Hn. destruct w as [|w]; [lia|].
  destruct (digits_of_S_head w n) as (a & tl & Ha & E).
  unfold atoi. rewrite E, digit_not_sign by exact Ha. rewrite <- E.
  unfold leadingInt. rewrite <- (List.app_nil_r (digits_of (S w) n)).
  rewrite leadingInt_from_digits; [reflexivity | exact Hn | lia |].
  assert (HP : 10 ^ Z.of_nat (S w) <= 10 ^ 17) by (apply Z.pow_le_mono_r; lia).
  change (2 ^ 63 / 10) with 922337203685477580.
  change (10 ^ 17) with 100000000000000000 in HP.
  rewrite Z.mul_0_l, Z.add_0_l.
  set (P := 10 ^ Z.of_nat (S w)) in *. clearbody P. lia.
Qed.

Lemma digits_of_2 (x : Z) :
  0 <= x < 100 -> digits_of 2 x = [digit (x / 10); digit (x mod 10)].
Proof.
  intros H. cbn [digits_of app].
  rewrite (Z.mod_small (x / 10)); [reflexivity|].
  split; [apply Z.div_pos; lia | apply Z.div_lt_upper_bound; lia].
Qed.

(** [getnum] reads two digits back. *)
Lemma getnum_digits (x : Z) (fixed : bool) (rest : bytes) :
  0 <= x < 100 -> getnum (digits_of 2 x ++ rest) fixed = Ok (x, rest).
Proof.
  intros H. rewrite digits_of_2 by exact H.
  assert (Ha : 0 <= x / 10 <= 9).
  { split; [apply Z.div_pos; lia|].
    apply Z.lt_succ_r, Z.div_lt_upper_bound; lia. }
  pose proof (mod10_digit x) as Hb.
  unfold getnum, isDigit. cbn [app nth_error nth skipn].
  rewrite !is_digit_digit by assumption. cbn [negb].
  rewrite !byte_Z_digit by assumption. change (byte_Z "0") with 48.
  do 2 f_equal. pose proof (Z.div_mod x 10 ltac:(lia)). lia.
Qed.

Lemma firstn_digits_app (w : nat) (n : Z) (rest : bytes) :
  firstn w (digits_of w n ++ rest) = digits_of w n /\
  skipn w (digits_of w n ++ rest) = rest.
Proof.
  pose proof (length_digits_of w n) as L. split.
  - rewrite firstn_app, L, Nat.sub_diag, firstn_O, List.app_nil_r.
    apply firstn_all2. lia.
  - rewrite skipn_app, L, Nat.sub_diag. cbn [skipn].
    rewrite skipn_all2 by lia. reflexivity.
Qed.

(** An element that is read without complaint hands the rest of the
    value and the fields on to the next. *)
Lemma parse_chunks_step_ok (al av prefix : bytes) (s : std)
    (cs : list (bytes * std)) (v v' : bytes) (st : fields) (r : step) :
  skip v prefix = (v', None) ->
  parse_std s (option_map snd (hd_error cs)) v' st = r ->
  s_range r = EmptyString -> s_err r = None ->
  parse_chunks al av ((prefix, s) :: cs) v st =
  parse_chunks al av cs (s_value r) (s_fields r).
Proof.
  intros Hs Hp Hr He. cbn [parse_chunks]. rewrite Hs, Hp, Hr, He. reflexivity.
Qed.

Lemma parse_std_year (next : option std) (y : Z) (rest : bytes) (st : fields) :
  0 <= y <= 9999 ->
  parse_std stdLongYear next (digits_of 4 y ++ rest) st =
  mkStep (mkFields y (f_month st) (f_day st) (f_hour st) (f_min st) (f_sec st)
            (f_nsec st)) rest (digits_of 4 y ++ rest) EmptyString None.
Proof.
  intros Hy. unfold parse_std.
  destruct (firstn_digits_app 4 y rest) as [Hf Hk]. rewrite Hf, Hk.
  rewrite length_app, length_digits_of.
  replace ((4 + List.length rest <? 4)%nat) with false
    by (symmetry; apply Nat.ltb_ge; lia).
  destruct (digits_of_S_head 3 y) as (a & tl & Ha & E).
  unfold isDigit. rewrite E at 1. cbn [app nth_error].
  rewrite is_digit_digit by exact Ha. cbn [negb orb].
  rewrite atoi_digits by (simpl; lia). reflexivity.
Qed.

Lemma parse_std_month (next : option std) (m : Z) (rest : bytes) (st : fields) :
  1 <= m <= 12 ->
  parse_std stdZeroMonth next (digits_of 2 m ++ rest) st =
  mkStep (mkFields (f_year st) m (f_day st) (f_hour st) (f_min st) (f_sec st)
            (f_nsec st)) rest (digits_of 2 m ++ rest) EmptyString None.
Proof.
  intros Hm. unfold parse_std, getnum3. rewrite getnum_digits by lia.
  unfold range_if.
  destruct (Z.leb_spec m 0); [lia|]. destruct (Z.ltb_spec 12 m); [lia|].
  reflexivity.
Qed.

Lemma parse_std_day (next : option std) (d : Z) (rest : bytes) (st : fields) :
  0 <= d < 100 ->
  parse_std stdZeroDay next (digits_of 2 d ++ rest) st =
  mkStep (mkFields (f_year st) (f_month st) d (f_hour st) (f_min st) (f_sec st)
            (f_nsec st)) rest (digits_of 2 d ++ rest) EmptyString None.
Proof.
  intros Hd. unfold parse_std, getnum3. now rewrite getnum_digits by lia.
Qed.

Lemma parse_std_hour (next : option std) (h : Z) (rest : bytes) (st : fields) :
  0 <= h < 24 ->
  parse_std stdHour next (digits_of 2 h ++ rest) st =
  mkStep (mkFields (f_year st) (f_month st) (f_day st) h (f_min st) (f_sec st)
            (f_nsec st)) rest (digits_of 2 h ++ rest) EmptyString None.
Proof.
  intros Hh. unfold parse_std, getnum3. rewrite getnum_digits by lia.
  unfold range_if.
  destruct (Z.ltb_spec h 0); [lia|]. destruct (Z.leb_spec 24 h); [lia|].
  reflexivity.
Qed.

Lemma parse_std_minute (next : option std) (mi : Z) (rest : bytes) (st : fields) :
  0 <= mi < 60 ->
  parse_std stdZeroMinute next (digits_of 2 mi ++ rest) st =
  mkStep (mkFields (f_year st) (f_month st) (f_day st) (f_hour st) mi (f_sec st)
            (f_nsec st)) rest (digits_of 2 mi ++ rest) EmptyString None.
Proof.
  intros Hh. unfold parse_std, getnum3. rewrite getnum_digits by lia.
  unfold range_if.
  destruct (Z.ltb_spec mi 0); [lia|]. destruct (Z.leb_spec 60 mi); [lia|].
  reflexivity.
Qed.

(** The seconds, when a fraction follows in the layout as well as in the
    value. *)
Lemma parse_std_second (n : nat) (s : Z) (rest : bytes) (st : fields) :
  0 <= s < 60 ->
  parse_std stdZeroSecond (Some (stdFracSecond0 n)) (digits_of 2 s ++ rest) st =
  mkStep (mkFields (f_year st) (f_month st) (f_day st) (f_hour st) (f_min st) s
            (f_nsec st)) rest (digits_of 2 s ++ rest) EmptyString None.
Proof.
  intros Hs. unfold parse_std, getnum3. rewrite getnum_digits by lia.
  destruct (Z.ltb_spec s 0); [lia|]. destruct (Z.leb_spec 60 s); [lia|].
  cbn [orb]. now destruct (_ && _ && _).
Qed.

Lemma parse_std_frac (next : option std) (ms : Z) (rest : bytes) (st : fields) :
  0 <= ms < 1000 ->
  parse_std (stdFracSecond0 3) next (lit "." ++ digits_of 3 ms ++ rest) st =
  mkStep (mkFields (f_year st) (f_month st) (f_day st) (f_hour st) (f_min st)
            (f_sec st) (ms * 1000000)) rest
    (lit "." ++ digits_of 3 ms ++ rest) EmptyString None.
Proof.
  intros Hms. unfold parse_std.
  change (lit "." ++ digits_of 3 ms ++ rest)
    with ("."%byte :: (digits_of 3 ms ++ rest)).
  cbn [List.length]. rewrite length_app, length_digits_of.
  replace ((S (3 + List.length rest) <? 1 + 3)%nat) with false
    by (symmetry; apply Nat.ltb_ge; lia).
  unfold parseNanoseconds. cbn [commaOrPeriod Byte.eqb orb negb].
  change (1 + 3)%nat with 4%nat.
  replace ((10 <? 4)%nat) with false by reflexivity.
  change (firstn 4 ("."%byte :: (digits_of 3 ms ++ rest)))
    with ("."%byte :: firstn 3 (digits_of 3 ms ++ rest)).
  change (skipn 4 ("."%byte :: (digits_of 3 ms ++ rest)))
    with (skipn 3 (digits_of 3 ms ++ rest)).
  destruct (firstn_digits_app 3 ms rest) as [Hf Hk]. rewrite Hf, Hk.
  cbn [skipn]. rewrite atoi_digits by (simpl; lia). cbn [bind].
  destruct (Z.ltb_spec ms 0); [lia|].
  change (10 ^ Z.of_nat (10 - 4)) with 1000000. reflexivity.
Qed.

Lemma day_two_digits (y m d : Z) : valid_date y m d -> 0 <= d < 100.
Proof.
  intros [Hm Hd]. assert (daysIn m y <= 31); [|lia].
  assert (C : m = 1 \/ m = 2 \/ m = 3 \/ m = 4 \/ m = 5 \/ m = 6 \/ m = 7 \/
              m = 8 \/ m = 9 \/ m = 10 \/ m = 11 \/ m = 12) by lia.
  unfold daysIn. destruct (isLeap y);
    repeat (destruct C as [->|C]; [vm_compute; discriminate|]);
    subst m; vm_compute; discriminate.
Qed.

Lemma reads_hour_two_digits (h : Z) :
  0 <= h < 24 -> reads_hour (digits_of 2 h) h.
Proof. intros Hh next rest st. now apply parse_std_hour. Qed.

Lemma reads_hour_one_digit (h : Z) :
  0 <= h <= 9 -> reads_hour [digit h] h.
Proof.
  intros Hh next rest st.
  change (lit ":" ++ rest) with (":"%byte :: rest).
  unfold parse_std, getnum3, getnum, isDigit.
  cbn [app nth_error nth skipn].
  rewrite is_digit_digit by exact Hh. cbn [negb].
  change (is_digit_byte ":") with false. cbn [negb].
  rewrite byte_Z_digit by exact Hh. change (byte_Z "0") with 48.
  replace (48 + h - 48) with h by lia. unfold range_if.
  destruct (Z.ltb_spec h 0); [lia|]. destruct (Z.leb_spec 24 h); [lia|].
  reflexivity.
Qed.

Lemma skip_one (c : byte) (rest : bytes) : skip (c :: rest) [c] = (rest, None).
Proof.
  cbn [skip]. rewrite (Byte.byte_dec_lb eq_refl). cbn [negb].
  now destruct rest.
Qed.

Lemma parse_chunks_upto_fraction (al av hh frac : bytes) (y m d h mi s : Z) :
  valid_date y m d -> 0 <= y <= 9999 -> reads_hour hh h ->
  0 <= mi < 60 -> 0 <= s < 60 ->
  parse_chunks al av (chunks tsLayout_chunks) (stamp_with hh frac y m d mi s)
    fields_init =
  parse_chunks al av [([], stdFracSecond0 3)] (lit "." ++ frac ++ lit "Z")
    (mkFields y m d h mi s 0).
Proof.
  intros Hd Hy Hh Hmi Hs.
  pose proof (day_two_digits y m d Hd) as Hd'. destruct Hd as [Hm _].
  unfold stamp_with.
  eapply eq_trans;
    [eapply parse_chunks_step_ok;
     [reflexivity | apply parse_std_year; exact Hy | reflexivity | reflexivity]|].
  cbn [s_value s_fields].
  eapply eq_trans;
    [eapply parse_chunks_step_ok;
     [reflexivity | apply parse_std_month; exact Hm | reflexivity | reflexivity]|].
  cbn [s_value s_fields].
  eapply eq_trans;
    [eapply parse_chunks_step_ok;
     [reflexivity | apply parse_std_day; exact Hd' | reflexivity | reflexivity]|].
  cbn [s_value s_fields].
  eapply eq_trans;
    [eapply parse_chunks_step_ok;
     [exact (skip_one "T"%byte _) | apply Hh | reflexivity | reflexivity]|].
  cbn [s_value s_fields].
  eapply eq_trans;
    [eapply parse_chunks_step_ok;
     [reflexivity | apply parse_std_minute; exact Hmi | reflexivity | reflexivity]|].
  cbn [s_value s_fields].
  eapply eq_trans;
    [eapply parse_chunks_step_ok;
     [reflexivity | apply (parse_std_second 3); exact Hs | reflexivity | reflexivity]|].
  cbn [s_value s_fields]. reflexivity.
Qed.

Lemma skip_nil (v : bytes) : skip v [] = (v, None).
Proof. now destruct v. Qed.

Lemma parse_chunks_fraction (al av : bytes) (ms : Z) (rest : bytes) (st : fields) :
  0 <= ms < 1000 ->
  parse_chunks al av [([], stdFracSecond0 3)] (lit "." ++ digits_of 3 ms ++ rest) st =
  Ok (mkFields (f_year st) (f_month st) (f_day st) (f_hour st) (f_min st)
        (f_sec st) (ms * 1000000), rest).
Proof.
  intros Hms.
  eapply eq_trans;
    [eapply parse_chunks_step_ok;
     [apply skip_nil | apply parse_std_frac; exact Hms | reflexivity | reflexivity]|].
  reflexivity.
Qed.

(** [time.Parse] once the elements have been read and the final Z is
    all that is left. *)
Lemma time_Parse_of_fields (v : bytes) (y m d h mi s ns : Z) :
  parse_chunks (layout_text tsLayout_chunks) v (chunks tsLayout_chunks) v
    fields_init = Ok (mkFields y m d h mi s ns, lit "Z") ->
  valid_date y m d ->
  time_Parse tsLayout_chunks v = Ok (time_Date y m d h mi s ns UTC).
Proof.
  intros Hp [Hm Hdd]. unfold time_Parse. cbv zeta. rewrite Hp.
  cbn [bind].
  change (skip (lit "Z") (suffix tsLayout_chunks)) with (@nil byte, @None errbad).
  cbn [List.length Nat.eqb negb f_year f_month f_day f_hour f_min f_sec f_nsec].
  destruct (Z.ltb_spec m 0); [lia|]. destruct (Z.ltb_spec d 0); [lia|].
  destruct (Z.ltb_spec d 1); [lia|]. destruct (Z.gtb_spec d (daysIn m y)); [lia|].
  reflexivity.
Qed.

(** The fields [parse] collects from a text in the pattern. *)
Lemma parse_chunks_stamp (al av : bytes) (y m d h mi s ms : Z) :
  valid_date y m d -> 0 <= y <= 9999 -> valid_clock h mi s ->
  0 <= ms < 1000 ->
  parse_chunks al av (chunks tsLayout_chunks) (stamp y m d h mi s ms) fields_init =
  Ok (mkFields y m d h mi s (ms * 1000000), lit "Z").
Proof.
  intros Hd Hy (Hh & Hmi & Hs) Hms.
  change (stamp y m d h mi s ms)
    with (stamp_with (digits_of 2 h) (digits_of 3 ms) y m d mi s).
  rewrite (parse_chunks_upto_fraction _ _ _ _ y m d h mi s Hd Hy
             (reads_hour_two_digits h Hh) Hmi Hs).
  now rewrite parse_chunks_fraction by exact Hms.
Qed.

Lemma time_Parse_stamp (y m d h mi s ms : Z) :
  valid_date y m d -> 0 <= y <= 9999 -> valid_clock h mi s ->
  0 <= ms < 1000 ->
  time_Parse tsLayout_chunks (stamp y m d h mi s ms) =
  Ok (time_Date y m d h mi s (ms * 1000000) UTC).
Proof.
  intros Hd Hy Hc Hms. unfold time_Parse. cbv zeta.
  rewrite (parse_chunks_stamp _ _ y m d h mi s ms Hd Hy Hc Hms).
  cbn [bind]. change (skip (lit "Z") (suffix tsLayout_chunks)) with (@nil byte, @None errbad).
  cbn [List.length Nat.eqb negb f_year f_month f_day f_hour f_min f_sec f_nsec].
  destruct Hd as [Hm Hdd].
  destruct (Z.ltb_spec m 0); [lia|]. destruct (Z.ltb_spec d 0); [lia|].
  destruct (Z.ltb_spec d 1); [lia|]. destruct (Z.gtb_spec d (daysIn m y)); [lia|].
  reflexivity.
Qed.

Lemma stamp_head (y m d h mi s ms : Z) :
  exists a tl, 0 <= a <= 9 /\ stamp y m d h mi s ms = digit a :: tl.
Proof.
  destruct (digits_of_S_head 3 y) as (a & tl & Ha & E).
  exists a. eexists. split; [exact Ha|]. unfold stamp. rewrite E. reflexivity.
Qed.

Lemma stamp_not_sentinel (y m d h mi s ms : Z) :
  bytes_Equal tszero (stamp y m d h mi s ms) = false.
Proof.
  destruct (stamp_head y m d h mi s ms) as (a & tl & Ha & ->).
  digit_cases a Ha; reflexivity.
Qed.

(** X18: the text of a calendar date of the years 0 to 9999 and a time
    of day in the pattern of the layout, without quotes, is decoded to
    that date and time in UTC, with the three fractional digits as
    milliseconds. *)
Theorem Timestamp_decodes_stamp (t0 : Timestamp) (y m d h mi s ms : Z) :
  valid_date y m d -> 0 <= y <= 9999 -> valid_clock h mi s ->
  0 <= ms < 1000 ->
  Timestamp_UnmarshalJSON t0 (stamp y m d h mi s ms) =
  (time_Date y m d h mi s (ms * 1000000) UTC, None).
Proof.
  intros Hd Hy Hc Hms. unfold Timestamp_UnmarshalJSON.
  now rewrite stamp_not_sentinel, time_Parse_stamp.
Qed.

(** What [Format] writes for a date and time built in a zone that is
    steady at that wall clock. *)
Lemma time_Format_Date_stamp (l : Location) (y m d h mi s ns : Z) :
  valid_date y m d -> 0 <= y <= 9999 -> valid_clock h mi s ->
  0 <= ns < 1000000000 ->
  zone_steady l (wall_unix y m d h mi s) ->
  time_Format (time_Date y m d h mi s ns l) tsLayout_chunks =
  stamp y m d h mi s (ns / 1000000).
Proof.
  intros Hd Hy Hc Hns Hst.
  pose proof (wall_clock_Date y m d h mi s ns l Hd Hc Hns Hst) as Hw.
  pose proof (nsec_Date y m d h mi s ns l) as Hn.
  rewrite Z.mod_small in Hn by lia.
  pose proof (day_two_digits y m d Hd) as Hd'.
  destruct Hd as [Hm _]. destruct Hc as (Hh & Hmi & Hs).
  rewrite (time_Format_stamp _ y m d h mi s Hw) by lia.
  now rewrite Hn.
Qed.

Lemma millis_in_range (ns : Z) :
  0 <= ns < 1000000000 -> 0 <= ns / 1000000 < 1000.
Proof.
  intros H. split; [apply Z.div_pos; lia | apply Z.div_lt_upper_bound; lia].
Qed.

(** X19: a non-zero instant built from a calendar date of the years 0
    to 9999 and a time of day in any zone that is steady at that wall
    clock (as every zone of a fixed offset is) is encoded as the digits
    of that date and time as the zone shows them, the nanoseconds cut to
    milliseconds, under a Z: the zone's offset is not applied and not
    written. *)
Theorem Timestamp_encodes_stamp (l : Location) (y m d h mi s ns : Z) :
  valid_date y m d -> 0 <= y <= 9999 -> valid_clock h mi s ->
  0 <= ns < 1000000000 ->
  zone_steady l (wall_unix y m d h mi s) ->
  time_IsZero (time_Date y m d h mi s ns l) = false ->
  Timestamp_MarshalJSON (time_Date y m d h mi s ns l) =
  (stamp y m d h mi s (ns / 1000000), None).
Proof.
  intros Hd Hy Hc Hns Hst Hz. unfold Timestamp_MarshalJSON. rewrite Hz.
  now rewrite time_Format_Date_stamp.
Qed.

(** X20: encoding such an instant, built in a zone that is steady at
    its wall clock, and decoding the bytes gives the same date and time
    of day back, but in UTC and with the nanoseconds cut to
    milliseconds: the zone of the instant is lost. *)
Theorem Timestamp_encode_decode_drops_zone (t0 : Timestamp) (l : Location)
    (y m d h mi s ns : Z) :
  valid_date y m d -> 0 <= y <= 9999 -> valid_clock h mi s ->
  0 <= ns < 1000000000 ->
  zone_steady l (wall_unix y m d h mi s) ->
  time_IsZero (time_Date y m d h mi s ns l) = false ->
  Timestamp_UnmarshalJSON t0 (fst (Timestamp_MarshalJSON (time_Date y m d h mi s ns l))) =
  (time_Date y m d h mi s (ns / 1000000 * 1000000) UTC, None).
Proof.
  intros Hd Hy Hc Hns Hst Hz. unfold Timestamp_MarshalJSON. rewrite Hz. cbn [fst].
  rewrite time_Format_Date_stamp by assumption.
  unfold Timestamp_UnmarshalJSON. rewrite stamp_not_sentinel.
  now rewrite time_Parse_stamp by (try assumption; now apply millis_in_range).
Qed.

(** X21: for an instant in UTC, the zero instant included, decoding what
    the encoder wrote gives the instant back, cut to milliseconds. *)
Theorem Timestamp_round_trip_UTC (t0 : Timestamp) (y m d h mi s ns : Z) :
  valid_date y m d -> 0 <= y <= 9999 -> valid_clock h mi s ->
  0 <= ns < 1000000000 ->
  Timestamp_UnmarshalJSON t0 (fst (Timestamp_MarshalJSON (time_Date y m d h mi s ns UTC))) =
  (time_Date y m d h mi s (ns / 1000000 * 1000000) UTC, None).
Proof.
  intros Hd Hy Hc Hns.
  unfold Timestamp_MarshalJSON.
  destruct (time_IsZero (time_Date y m d h mi s ns UTC)) eqn:Hz; cbn [fst].
  - unfold Timestamp_UnmarshalJSON. rewrite bytes_Equal_refl. f_equal.
    unfold time_IsZero in Hz. apply andb_true_iff in Hz as [Hs0 Hn0].
    apply Z.eqb_eq in Hs0, Hn0.
    rewrite nsec_Date, Z.mod_small in Hn0 by lia. subst ns.
    change (0 / 1000000 * 1000000) with 0.
    pose proof (loc_Date y m d h mi s 0 UTC) as Hl.
    pose proof (nsec_Date y m d h mi s 0 UTC) as Hn.
    destruct (time_Date y m d h mi s 0 UTC) as [sc nsc lc].
    cbn [sec nsec loc] in *. subst. reflexivity.
  - rewrite time_Format_Date_stamp by (try assumption; apply (zone_steady_fixed 0)).
    unfold Timestamp_UnmarshalJSON. rewrite stamp_not_sentinel.
    now rewrite time_Parse_stamp by (try assumption; now apply millis_in_range).
Qed.

Lemma Timestamp_decodes_stamp_witness :
  valid_date 1999 12 31 /\
  Timestamp_UnmarshalJSON time_zero (lit "1999-12-31T23:59:59.999Z") =
    (time_Date 1999 12 31 23 59 59 999000000 UTC, None).
Proof.
  assert (Hv : valid_date 1999 12 31).
  { unfold valid_date. vm_compute. intuition discriminate. }
  split; [exact Hv|].
  assert (Hc : valid_clock 23 59 59) by (unfold valid_clock; lia).
  exact (Timestamp_decodes_stamp time_zero 1999 12 31 23 59 59 999 Hv
           ltac:(lia) Hc ltac:(lia)).
Defined.

Lemma Timestamp_encodes_stamp_witness :
  zone_steady (FixedZone (-18000)) (wall_unix 2024 2 29 8 5 9) /\
  time_IsZero (time_Date 2024 2 29 8 5 9 123456789 (FixedZone (-18000))) = false /\
  Timestamp_MarshalJSON (time_Date 2024 2 29 8 5 9 123456789 (FixedZone (-18000))) =
    (lit "2024-02-29T08:05:09.123Z", None).
Proof.
  assert (Hv : valid_date 2024 2 29).
  { unfold valid_date. vm_compute. intuition discriminate. }
  assert (Hc : valid_clock 8 5 9) by (unfold valid_clock; lia).
  assert (Hst : zone_steady (FixedZone (-18000)) (wall_unix 2024 2 29 8 5 9))
    by (unfold zone_steady; vm_compute; reflexivity).
  split; [exact Hst|]. split; [reflexivity|].
  exact (Timestamp_encodes_stamp (FixedZone (-18000)) 2024 2 29 8 5 9 123456789 Hv
           ltac:(lia) Hc ltac:(lia) Hst eq_refl).
Defined.

Lemma Timestamp_encode_decode_drops_zone_witness :
  zone_steady (FixedZone 3600) (wall_unix 2024 3 5 12 0 0) /\
  time_IsZero (time_Date 2024 3 5 12 0 0 1500000 (FixedZone 3600)) = false /\
  Timestamp_UnmarshalJSON time_zero
    (fst (Timestamp_MarshalJSON (time_Date 2024 3 5 12 0 0 1500000 (FixedZone 3600)))) =
    (time_Date 2024 3 5 12 0 0 1000000 UTC, None) /\
  sec (time_Date 2024 3 5 12 0 0 1000000 UTC) =
    sec (time_Date 2024 3 5 12 0 0 1500000 (FixedZone 3600)) + 3600.
Proof.
  assert (Hv : valid_date 2024 3 5) by exact valid_date_2024_3_5.
  assert (Hc : valid_clock 12 0 0) by (unfold valid_clock; lia).
  assert (Hst : zone_steady (FixedZone 3600) (wall_unix 2024 3 5 12 0 0))
    by (unfold zone_steady; vm_compute; reflexivity).
  split; [exact Hst|].
  split; [reflexivity|]. split; [|vm_compute; reflexivity].
  exact (Timestamp_encode_decode_drops_zone time_zero (FixedZone 3600)
           2024 3 5 12 0 0 1500000 Hv ltac:(lia) Hc ltac:(lia) Hst eq_refl).
Defined.

Lemma Timestamp_round_trip_UTC_witness :
  valid_date 1 1 1 /\
  Timestamp_UnmarshalJSON (time_Date 2024 3 5 12 0 0 0 UTC)
    (fst (Timestamp_MarshalJSON (time_Date 1 1 1 0 0 0 0 UTC))) =
    (time_Date 1 1 1 0 0 0 0 UTC, None).
Proof.
  assert (Hv : valid_date 1 1 1).
  { unfold valid_date. vm_compute. intuition discriminate. }
  assert (Hc : valid_clock 0 0 0) by (unfold valid_clock; lia).
  split; [exact Hv|].
  exact (Timestamp_round_trip_UTC (time_Date 2024 3 5 12 0 0 0 UTC) 1 1 1 0 0 0 0
           Hv ltac:(lia) Hc ltac:(lia)).
Defined.

(** ** Timestamps: texts near the pattern *)

Lemma stamp_with_head (hh frac : bytes) (y m d mi s : Z) :
  bytes_Equal tszero (stamp_with hh frac y m d mi s) = false.
Proof.
  destruct (digits_of_S_head 3 y) as (a & tl & Ha & E).
  unfold stamp_with. rewrite E. digit_cases a Ha; reflexivity.
Qed.

(** X22: the hour may be written with one digit: such a text is decoded
    like the one with the leading zero. *)
Theorem Timestamp_decodes_one_digit_hour (t0 : Timestamp) (y m d h mi s ms : Z) :
  valid_date y m d -> 0 <= y <= 9999 -> 0 <= h <= 9 ->
  0 <= mi < 60 -> 0 <= s < 60 -> 0 <= ms < 1000 ->
  Timestamp_UnmarshalJSON t0 (stamp_with [digit h] (digits_of 3 ms) y m d mi s) =
  (time_Date y m d h mi s (ms * 1000000) UTC, None).
Proof.
  intros Hd Hy Hh Hmi Hs Hms. unfold Timestamp_UnmarshalJSON.
  rewrite stamp_with_head.
  rewrite (time_Parse_of_fields _ y m d h mi s (ms * 1000000)); [reflexivity | | exact Hd].
  rewrite (parse_chunks_upto_fraction _ _ _ _ y m d h mi s Hd Hy
             (reads_hour_one_digit h Hh) Hmi Hs).
  now rewrite parse_chunks_fraction by exact Hms.
Qed.

Lemma digits_of_3 (a b c : Z) :
  0 <= a <= 9 -> 0 <= b <= 9 -> 0 <= c <= 9 ->
  [digit a; digit b; digit c] = digits_of 3 (100 * a + 10 * b + c).
Proof.
  intros Ha Hb Hc. cbn [digits_of app].
  replace ((100 * a + 10 * b + c) mod 10) with c
    by (apply (Z.mod_unique_pos _ 10 (10 * a + b)); lia).
  replace ((100 * a + 10 * b + c) / 10) with (10 * a + b)
    by (apply (Z.div_unique_pos _ 10 (10 * a + b) c); lia).
  replace ((10 * a + b) mod 10) with b
    by (apply (Z.mod_unique_pos _ 10 a); lia).
  replace ((10 * a + b) / 10) with a
    by (apply (Z.div_unique_pos _ 10 a b); lia).
  rewrite (Z.mod_small a) by lia. reflexivity.
Qed.

(** A fraction of fewer than three digits before the Z stops the
    fraction element. *)
Lemma parse_std_frac_short (next : option std) (frac : bytes) (st : fields) :
  (List.length frac <= 1)%nat ->
  s_err (parse_std (stdFracSecond0 3) next ("."%byte :: frac ++ lit "Z") st) =
    Some errBad /\
  s_range (parse_std (stdFracSecond0 3) next ("."%byte :: frac ++ lit "Z") st) =
    EmptyString.
Proof.
  intros Hl. unfold parse_std. cbn [List.length]. rewrite length_app.
  replace ((S (List.length frac + List.length (lit "Z")) <? 1 + 3)%nat) with true
    by (symmetry; apply Nat.ltb_lt; simpl; lia).
  split; reflexivity.
Qed.

Lemma parse_std_frac_two (next : option std) (a b : Z) (st : fields) :
  0 <= a <= 9 -> 0 <= b <= 9 ->
  s_err (parse_std (stdFracSecond0 3) next
           ("."%byte :: [digit a; digit b] ++ lit "Z") st) = Some errAtoi /\
  s_range (parse_std (stdFracSecond0 3) next
             ("."%byte :: [digit a; digit b] ++ lit "Z") st) = EmptyString.
Proof.
  intros Ha Hb. change (lit "Z") with ["Z"%byte]. unfold parse_std.
  cbn [app List.length Nat.add].
  change ((4 <? 4)%nat) with false. cbv iota.
  unfold parseNanoseconds. cbn [commaOrPeriod Byte.eqb orb negb].
  replace ((10 <? 4)%nat) with false by reflexivity.
  cbn [firstn skipn].
  assert (E : atoi [digit a; digit b; "Z"%byte] = Err errAtoi).
  { unfold atoi. rewrite digit_not_sign by exact Ha.
    unfold leadingInt. cbn [leadingInt_from].
    rewrite !is_digit_digit by assumption. cbn [negb].
    rewrite !byte_Z_digit by assumption. change (byte_Z "0") with 48.
    change (2 ^ 63 / 10) with 922337203685477580.
    change (2 ^ 63) with 9223372036854775808.
    destruct (Z.gtb_spec 0 922337203685477580); [lia|].
    destruct (Z.gtb_spec (0 * 10 + (48 + a) - 48) 9223372036854775808); [lia|].
    destruct (Z.gtb_spec (0 * 10 + (48 + a) - 48) 922337203685477580); [lia|].
    destruct (Z.gtb_spec ((0 * 10 + (48 + a) - 48) * 10 + (48 + b) - 48)
                9223372036854775808); [lia|].
    reflexivity. }
  rewrite E. split; reflexivity.
Qed.

(** X23: a fraction of seconds that does not have exactly three digits is
    rejected: with fewer the fraction element fails, with more the
    fourth digit stands where the layout has its Z. *)
Theorem Timestamp_rejects_other_fraction_widths (t0 : Timestamp)
    (y m d h mi s : Z) (ds : list Z) :
  valid_date y m d -> 0 <= y <= 9999 -> valid_clock h mi s ->
  Forall (fun a => 0 <= a <= 9) ds -> List.length ds <> 3%nat ->
  exists le ve msg,
    Timestamp_UnmarshalJSON t0
      (stamp_with (digits_of 2 h) (map digit ds) y m d mi s) =
    (t0, Some (ParseError tsLayout
                 (stamp_with (digits_of 2 h) (map digit ds) y m d mi s)
                 le ve msg)).
Proof.
  intros Hd Hy (Hh & Hmi & Hs) Hds Hlen.
  unfold Timestamp_UnmarshalJSON. rewrite stamp_with_head.
  unfold time_Parse. cbv zeta. rewrite layout_text_tsLayout.
  rewrite (parse_chunks_upto_fraction _ _ _ _ y m d h mi s Hd Hy
             (reads_hour_two_digits h Hh) Hmi Hs).
  set (V := stamp_with (digits_of 2 h) (map digit ds) y m d mi s).
  set (st := mkFields y m d h mi s 0).
  destruct ds as [|a [|b [|c [|e more]]]]; cbn [map] in *.
  - destruct (parse_std_frac_short None [] st) as [He Hr]; [simpl; lia|].
    erewrite parse_chunks_step_err; [|apply skip_nil|reflexivity|exact Hr|exact He].
    cbn [bind]. eauto.
  - destruct (parse_std_frac_short None [digit a] st) as [He Hr]; [simpl; lia|].
    erewrite parse_chunks_step_err; [|apply skip_nil|reflexivity|exact Hr|exact He].
    cbn [bind]. eauto.
  - inversion Hds as [|? ? Ha Hds']; subst. inversion Hds' as [|? ? Hb _]; subst.
    destruct (parse_std_frac_two None a b st Ha Hb) as [He Hr].
    erewrite parse_chunks_step_err; [|apply skip_nil|reflexivity|exact Hr|exact He].
    cbn [bind]. eauto.
  - simpl in Hlen. lia.
  - inversion Hds as [|? ? Ha Hds1]; subst. inversion Hds1 as [|? ? Hb Hds2]; subst.
    inversion Hds2 as [|? ? Hc Hds3]; subst. inversion Hds3 as [|? ? He _]; subst.
    change (lit "." ++ (digit a :: digit b :: digit c :: digit e :: map digit more)
              ++ lit "Z")
      with (lit "." ++ [digit a; digit b; digit c] ++
            (digit e :: map digit more ++ lit "Z")).
    rewrite (digits_of_3 a b c Ha Hb Hc).
    rewrite parse_chunks_fraction by lia. cbn [bind].
    assert (Hk : skip (digit e :: map digit more ++ lit "Z") (suffix tsLayout_chunks) =
                 (digit e :: map digit more ++ lit "Z", Some errBad)).
    { digit_cases e He; reflexivity. }
    rewrite Hk. eauto.
Qed.

Lemma Timestamp_decodes_one_digit_hour_witness :
  valid_date 2024 3 5 /\
  Timestamp_UnmarshalJSON time_zero (lit "2024-03-05T9:00:00.000Z") =
    (time_Date 2024 3 5 9 0 0 0 UTC, None).
Proof.
  split; [exact valid_date_2024_3_5|].
  exact (Timestamp_decodes_one_digit_hour time_zero 2024 3 5 9 0 0 0
           valid_date_2024_3_5 ltac:(lia) ltac:(lia) ltac:(lia) ltac:(lia)
           ltac:(lia)).
Defined.

Lemma Timestamp_rejects_other_fraction_widths_witness :
  valid_date 2024 3 5 /\
  snd (Timestamp_UnmarshalJSON time_zero (lit "2024-03-05T12:00:00.1234Z")) <> None.
Proof.
  split; [exact valid_date_2024_3_5|].
  assert (Hc : valid_clock 12 0 0) by (unfold valid_clock; lia).
  destruct (Timestamp_rejects_other_fraction_widths time_zero 2024 3 5 12 0 0
              [1; 2; 3; 4] valid_date_2024_3_5 ltac:(lia) Hc
              ltac:(repeat constructor; lia) ltac:(discriminate))
    as (le & ve & msg & H).
  change (stamp_with (digits_of 2 12) (map digit [1; 2; 3; 4]) 2024 3 5 0 0)
    with (lit "2024-03-05T12:00:00.1234Z") in H.
  rewrite H. discriminate.
Defined.
